(** * Client-side image sanitiser: EXIF stripping and adaptive re-encoding

    A shallow embedding of the two canvas-based sanitisers of the
    application:

    - the compressing variant ([removeExifData], [removeExifDataFromFiles]
      with the inner closure [compressImage]), which bounds the dimensions
      and searches over (width, height, quality) for an encoding that fits a
      byte budget;
    - the legacy variant of [src/app/lib/image-utils.ts]
      (module [ImageUtils]), which re-encodes once.

    The browser is an explicit environment of oracles (file reader, image
    decoder, canvas context, canvas encoder).  A promise is modelled by the
    way it settles; the compressing search additionally returns the log of
    the [toBlob] calls it made.  JavaScript numbers are abstracted by the
    class [Number], with two instances: exact rationals ([Q], the arithmetic
    the specification reasons in) and IEEE-754 binary64 ([float], what the
    runtime computes). *)

From Stdlib Require Import ZArith QArith Qminmax Qround Lqa Lia.
From Stdlib Require Import List String Ascii Bool Floats.
Import ListNotations.

Set Warnings "-inexact-float".

(** ** JavaScript numbers *)

(** The operations and literals of type [number] that the sanitiser uses. *)
Class Number (num : Type) : Type := {
  n_sub : num -> num -> num;          (* a - b *)
  n_mul : num -> num -> num;          (* a * b *)
  n_div : num -> num -> num;          (* a / b *)
  n_gt : num -> num -> bool;          (* a > b *)
  Math_min : num -> num -> num;       (* Math.min(a, b) *)
  n_0_92 : num;                       (* 0.92 *)
  n_0_1 : num;                        (* 0.1 *)
  n_0_3 : num;                        (* 0.3 *)
  n_0_7 : num;                        (* 0.7 *)
  n_0_8 : num;                        (* 0.8 *)
  n_800 : num                         (* 800 *)
}.

(** Exact rational arithmetic. *)
Definition Qgtb (a b : Q) : bool := negb (Qle_bool a b).

#[export] Instance Number_Q : Number Q := {|
  n_sub := Qminus;
  n_mul := Qmult;
  n_div := Qdiv;
  n_gt := Qgtb;
  Math_min := Qmin;
  n_0_92 := 0.92%Q;
  n_0_1 := 0.1%Q;
  n_0_3 := 0.3%Q;
  n_0_7 := 0.7%Q;
  n_0_8 := 0.8%Q;
  n_800 := 800%Q
|}.

(** IEEE-754 binary64, round to nearest even: the kernel's primitive floats.
    [Math.min] returns NaN when an argument is NaN and orders -0 below +0. *)
Definition float_min (a b : float) : float :=
  if (PrimFloat.is_nan a || PrimFloat.is_nan b)%bool then PrimFloat.nan
  else if PrimFloat.ltb a b then a
  else if PrimFloat.ltb b a then b
  else if (PrimFloat.is_zero a && PrimFloat.get_sign a)%bool then a
  else b.

#[export] Instance Number_binary64 : Number float := {|
  n_sub := PrimFloat.sub;
  n_mul := PrimFloat.mul;
  n_div := PrimFloat.div;
  n_gt := fun a b => PrimFloat.ltb b a;
  Math_min := float_min;
  n_0_92 := 0.92%float;
  n_0_1 := 0.1%float;
  n_0_3 := 0.3%float;
  n_0_7 := 0.7%float;
  n_0_8 := 0.8%float;
  n_800 := 800%float
|}.

(** ** Blobs, files, promises *)

(** A [Blob]: its byte size and the media type its bytes are encoded in.
    Byte counts ([blob.size], and the budget [maxSize] it is compared with)
    are integers. *)
Record Blob : Type := mkBlob {
  blob_size : Z;
  blob_type : string
}.

(** A [File]: [new File([blob], name, {type, lastModified})].  The declared
    [type] is independent of the encoding of the bytes.  The modification
    time ([Date.now()]) is not modelled. *)
Record File : Type := new_File {
  file_bits : Blob;
  file_name : string;
  file_type : string
}.

(** [new Error(message)]. *)
Definition Error : Type := string.

(** How a promise settles. *)
Inductive Settled (A : Type) : Type :=
| Resolved (value : A)
| Rejected (reason : Error).
Arguments Resolved {A} value.
Arguments Rejected {A} reason.

(** ** The browser *)

(** [FileReader.readAsDataURL]: [onerror], or [onload] with
    [e.target.result] (possibly null). *)
Inductive ReaderEvent : Type :=
| reader_onerror
| reader_onload (result : option string).

(** [new Image()] after [img.src = ...]: [onerror], or [onload] with
    [img.width] and [img.height]. *)
Inductive ImageEvent (num : Type) : Type :=
| img_onerror
| img_onload (width height : num).
Arguments img_onerror {num}.
Arguments img_onload {num} width height.

(** The browser facilities the sanitisers call.  [getContext] and [toBlob]
    are indexed by the canvas they are called on (its requested width and
    height, and the quality of the attempt), so that the availability of a
    2d context and the encoder's output may differ from one canvas of the
    search to the next.  [toBlob w h type quality] is the byte size of the
    encoding, or [None] when the callback receives null. *)
Record Browser (num : Type) : Type := {
  readAsDataURL : File -> ReaderEvent;
  Image_src : string -> ImageEvent num;
  getContext : num -> num -> num -> bool;
  toBlob : num -> num -> string -> num -> option Z
}.
Arguments readAsDataURL {num}.
Arguments Image_src {num}.
Arguments getContext {num}.
Arguments toBlob {num}.

(** JavaScript truthiness of [e.target?.result]. *)
Definition truthy (result : option string) : option string :=
  match result with
  | Some EmptyString => None
  | Some s => Some s
  | None => None
  end.

(** [canvas.toBlob(callback, type, quality)]: the blob handed to the
    callback carries the requested media type. *)
Definition canvas_toBlob {num : Type} (env : Browser num)
    (width height : num) (type : string) (quality : num) : option Blob :=
  match toBlob env width height type quality with
  | Some size => Some (mkBlob size type)
  | None => None
  end.

(** ** The compressing variant *)

Section Compressing.

Context {num : Type} {NUM : Number num}.

(** One encoding attempt: the canvas size and the quality passed to
    [toBlob]. *)
Definition Attempt : Type := (num * num * num)%type.

Definition attempt_quality (a : Attempt) : num := snd a.
Definition attempt_width (a : Attempt) : num := fst (fst a).
Definition attempt_height (a : Attempt) : num := snd (fst a).

(** A run of the search: the [toBlob] calls in order, and how the promise
    settles. *)
Definition Run : Type := (list Attempt * Settled File)%type.

Definition logged (a : Attempt) (r : option Run) : option Run :=
  match r with
  | Some (log, out) => Some (a :: log, out)
  | None => None
  end.

(** The media type is fixed: [const mimeType = "image/jpeg"]. *)
Definition mimeType : string := "image/jpeg"%string.

(** The resize of the third branch of [compressImage] (the dimensions of
    the next attempt). *)
Definition shrink (targetWidth targetHeight : num) : num * num :=
  let aspectRatio := n_div targetWidth targetHeight in
  let newWidth := Math_min (n_mul targetWidth n_0_8) n_800 in
  let newHeight := n_div newWidth aspectRatio in
  if n_gt newHeight n_800
  then (n_mul n_800 aspectRatio, n_800)
  else (newWidth, newHeight).

(** The initial target dimensions computed by [removeExifData]. *)
Definition initialDimensions (width height maxDimension : num) : num * num :=
  if (n_gt width maxDimension || n_gt height maxDimension)%bool then
    let aspectRatio := n_div width height in
    if n_gt width height
    then (maxDimension, n_div maxDimension aspectRatio)
    else (n_mul maxDimension aspectRatio, maxDimension)
  else (width, height).

Section Search.

Variable env : Browser num.
Variable fileName : string.
Variable maxSize : Z.

(** [compressImage]: the recursion is through promise callbacks; [fuel]
    bounds the number of canvases created, and [None] means the bound was
    reached before the promise settled. *)
Fixpoint compressImage (fuel : nat) (targetWidth targetHeight quality : num)
    : option Run :=
  match fuel with
  | O => None
  | S fuel' =>
    if negb (getContext env targetWidth targetHeight quality) then
      Some ([], Rejected "Canvas context not available"%string)
    else
      let here : Attempt := (targetWidth, targetHeight, quality) in
      match canvas_toBlob env targetWidth targetHeight mimeType quality with
      | None => Some ([here], Rejected "Failed to create blob"%string)
      | Some blob =>
        if (blob_size blob <=? maxSize)%Z then
          Some ([here], Resolved (new_File blob fileName mimeType))
        else if n_gt quality n_0_3 then
          logged here
            (compressImage fuel' targetWidth targetHeight (n_sub quality n_0_1))
        else if (n_gt targetWidth n_800 || n_gt targetHeight n_800)%bool then
          let '(newWidth, newHeight) := shrink targetWidth targetHeight in
          logged here (compressImage fuel' newWidth newHeight n_0_7)
        else
          Some ([here], Resolved (new_File blob fileName mimeType))
      end
  end.

End Search.

(** [removeExifData(file, maxSize, maxDimension)].  The [try]/[catch]
    around the body of [img.onload] is not modelled: none of the modelled
    operations throws. *)
Definition removeExifData (env : Browser num) (fuel : nat)
    (file : File) (maxSize : Z) (maxDimension : num) : option Run :=
  match readAsDataURL env file with
  | reader_onerror => Some ([], Rejected "Failed to read file"%string)
  | reader_onload result =>
    match truthy result with
    | None => Some ([], Rejected "Failed to read file"%string)
    | Some src =>
      match Image_src env src with
      | img_onerror => Some ([], Rejected "Failed to load image"%string)
      | img_onload width height =>
        let '(width, height) := initialDimensions width height maxDimension in
        compressImage env (file_name file) maxSize fuel width height n_0_92
      end
    end
  end.

End Compressing.

Arguments Attempt num : clear implicits.
Arguments Run num : clear implicits.

(** ** [Promise.all] *)

Section PromiseAll.

Context {A : Type}.

(** The promises handed to [Promise.all] are given by their fate
    ([None]: never settles) and by [order], the indices of the promises
    that settle, in the order in which they do.  [Promise.all] rejects with
    the reason of the first promise that rejects, and otherwise resolves,
    once every promise has, with the values in the order of the array. *)
Fixpoint first_rejection (order : list nat) (promises : list (option (Settled A)))
    : option Error :=
  match order with
  | [] => None
  | i :: later =>
    match nth_error promises i with
    | Some (Some (Rejected reason)) => Some reason
    | _ => first_rejection later promises
    end
  end.

Fixpoint all_values (promises : list (option (Settled A))) : option (list A) :=
  match promises with
  | [] => Some []
  | Some (Resolved value) :: rest =>
    match all_values rest with
    | Some values => Some (value :: values)
    | None => None
    end
  | _ => None
  end.

Definition Promise_all (order : list nat) (promises : list (option (Settled A)))
    : option (Settled (list A)) :=
  match first_rejection order promises with
  | Some reason => Some (Rejected reason)
  | None =>
    match all_values promises with
    | Some values => Some (Resolved values)
    | None => None
    end
  end.

End PromiseAll.

Section Batch.

Context {num : Type} {NUM : Number num}.

(** How the promise returned by [removeExifData] settles. *)
Definition settlement (r : option (Run num)) : option (Settled File) :=
  match r with
  | Some (_, out) => Some out
  | None => None
  end.

(** [removeExifDataFromFiles(files, maxSize, maxDimension)]:
    [Promise.all(files.map((file) => removeExifData(file, maxSize, maxDimension)))]. *)
Definition removeExifDataFromFiles (env : Browser num) (fuel : nat)
    (order : list nat) (files : list File) (maxSize : Z) (maxDimension : num)
    : option (Settled (list File)) :=
  Promise_all order
    (map (fun file => settlement (removeExifData env fuel file maxSize maxDimension))
         files).

End Batch.

(** ** The legacy variant ([src/app/lib/image-utils.ts]) *)

Module ImageUtils.

(** [s.split(".")]: never empty. *)
Fixpoint split_dot (s : string) : list string :=
  match s with
  | EmptyString => [EmptyString]
  | String c rest =>
    if Ascii.eqb c "."%char then EmptyString :: split_dot rest
    else
      match split_dot rest with
      | piece :: pieces => String c piece :: pieces
      | [] => [String c EmptyString]
      end
  end.

(** [pieces.pop()]. *)
Definition pop (pieces : list string) : option string :=
  match rev pieces with
  | piece :: _ => Some piece
  | [] => None
  end.

(** [toLowerCase] on the ASCII letters (no other character lower-cases to a
    letter of "png" or "gif"). *)
Definition lower_ascii (c : ascii) : ascii :=
  let n := nat_of_ascii c in
  if ((65 <=? n) && (n <=? 90))%nat then ascii_of_nat (n + 32) else c.

Fixpoint toLowerCase (s : string) : string :=
  match s with
  | EmptyString => EmptyString
  | String c rest => String (lower_ascii c) (toLowerCase rest)
  end.

(** [fileName.split(".").pop()?.toLowerCase() || "jpg"]. *)
Definition fileExtension (fileName : string) : string :=
  match pop (split_dot fileName) with
  | Some piece =>
    match toLowerCase piece with
    | EmptyString => "jpg"%string
    | ext => ext
    end
  | None => "jpg"%string
  end.

(** The declared type of the output, from the extension. *)
Definition declaredType (fileName : string) : string :=
  let ext := fileExtension fileName in
  if String.eqb ext "png" then "image/png"%string
  else if String.eqb ext "gif" then "image/gif"%string
  else "image/jpeg"%string.

(** The type handed to [toBlob]:
    [file.type.startsWith("image/png") ? "image/png" : "image/jpeg"]. *)
Definition encodingType (file : File) : string :=
  if String.prefix "image/png" (file_type file) then "image/png"%string
  else "image/jpeg"%string.

(** [removeExifData(file, quality)] of image-utils.ts. *)
Definition removeExifData {num : Type} (env : Browser num)
    (file : File) (quality : num) : Settled File :=
  match readAsDataURL env file with
  | reader_onerror => Rejected "Failed to read file"%string
  | reader_onload result =>
    match truthy result with
    | None => Rejected "Failed to read file"%string
    | Some src =>
      match Image_src env src with
      | img_onerror => Rejected "Failed to load image"%string
      | img_onload width height =>
        if negb (getContext env width height quality) then
          Rejected "Canvas context not available"%string
        else
          match canvas_toBlob env width height (encodingType file) quality with
          | None => Rejected "Failed to create blob"%string
          | Some blob =>
            Resolved (new_File blob (file_name file) (declaredType (file_name file)))
          end
      end
    end
  end.

(** [removeExifDataFromFiles(files, quality)] of image-utils.ts:
    [Promise.all(files.map((file) => removeExifData(file, quality)))].  The
    promise of every item settles. *)
Definition removeExifDataFromFiles {num : Type} (env : Browser num)
    (order : list nat) (files : list File) (quality : num)
    : option (Settled (list File)) :=
  Promise_all order
    (map (fun file => Some (removeExifData env file quality)) files).

End ImageUtils.

(** ** The post lists of the profile page
    ([src/app/(app)/users/[accountId]/page.tsx]) *)

Module ProfilePage.

Section Posts.

(** The fields of [PostWithUser] and of the cached responses that the
    handlers do not touch are kept abstract. *)
Context {num Others Extra : Type}.

Record Post : Type := mkPost {
  post_id : string;
  likeCount : num;
  isLiked : bool;
  others : Others
}.

Record PostsData : Type := mkPostsData {
  posts : list Post;
  extra : Extra
}.

(** [prev.map((post) => post.id === postId ? { ...post, likeCount, isLiked } : post)]. *)
Definition withLike (postId : string) (count : num) (liked : bool)
    (prev : list Post) : list Post :=
  map (fun post =>
         if String.eqb (post_id post) postId
         then mkPost (post_id post) count liked (others post)
         else post)
      prev.

(** [prev.filter((post) => post.id !== postId)]. *)
Definition without (postId : string) (prev : list Post) : list Post :=
  filter (fun post => negb (String.eqb (post_id post) postId)) prev.

(** The updater handed to an SWR [mutate]:
    [if (!currentData) return currentData; return { ...currentData, posts: ... }]. *)
Definition mutatePosts (update : list Post -> list Post)
    (currentData : option PostsData) : option PostsData :=
  match currentData with
  | None => None
  | Some data => Some (mkPostsData (update (posts data)) (extra data))
  end.

(** The post lists of the page: the accumulated pages ([allPosts]) and the
    caches of the posts, feed and liked-posts requests. *)
Record PageState : Type := mkPageState {
  allPosts : list Post;
  postsData : option PostsData;
  feedData : option PostsData;
  likedPostsData : option PostsData
}.

(** [handleLikeChange(postId, likeCount, isLiked)]. *)
Definition handleLikeChange (isOwnProfile : bool) (postId : string)
    (count : num) (liked : bool) (st : PageState) : PageState :=
  mkPageState
    (withLike postId count liked (allPosts st))
    (mutatePosts (withLike postId count liked) (postsData st))
    (if isOwnProfile
     then mutatePosts (withLike postId count liked) (feedData st)
     else feedData st)
    (mutatePosts (withLike postId count liked) (likedPostsData st)).

(** [handlePostDelete(postId)]. *)
Definition handlePostDelete (isOwnProfile : bool) (postId : string)
    (st : PageState) : PageState :=
  mkPageState
    (without postId (allPosts st))
    (mutatePosts (without postId) (postsData st))
    (if isOwnProfile
     then mutatePosts (without postId) (feedData st)
     else feedData st)
    (mutatePosts (without postId) (likedPostsData st)).

(** The posts of a cache, none when the data is missing. *)
Definition cached (data : option PostsData) : list Post :=
  match data with
  | Some d => posts d
  | None => []
  end.

Definition post_lists (st : PageState) : list (list Post) :=
  [allPosts st; cached (postsData st); cached (feedData st);
   cached (likedPostsData st)].

End Posts.

End ProfilePage.

(** ** Vocabulary of the statements *)

(** The reasons the sanitisers reject with, under the names the
    specification gives them. *)
Definition ReadError : Error := "Failed to read file"%string.
Definition DecodeError : Error := "Failed to load image"%string.
Definition SurfaceError : Error := "Canvas context not available"%string.
Definition EncodeError : Error := "Failed to create blob"%string.

Section Vocabulary.

Context {num : Type} {NUM : Number num}.

(** The input bytes could not be loaded. *)
Definition read_fails (env : Browser num) (file : File) : Prop :=
  readAsDataURL env file = reader_onerror \/
  exists result, readAsDataURL env file = reader_onload result /\
                 truthy result = None.

(** The bytes were loaded and are not a raster image. *)
Definition decode_fails (env : Browser num) (file : File) : Prop :=
  exists result src, readAsDataURL env file = reader_onload result /\
                     truthy result = Some src /\
                     Image_src env src = img_onerror.

(** The bytes were loaded and decoded to [width] x [height] pixels. *)
Definition decodes_to (env : Browser num) (file : File) (width height : num) : Prop :=
  exists result src, readAsDataURL env file = reader_onload result /\
                     truthy result = Some src /\
                     Image_src env src = img_onload width height.

(** A canvas whose context is available and whose encoding exceeds the
    budget. *)
Definition over_budget (env : Browser num) (maxSize : Z) (w h q : num) : Prop :=
  getContext env w h q = true /\
  exists size, toBlob env w h mimeType q = Some size /\ (maxSize < size)%Z.

(** The walk of the search when no attempt fits the budget: it does not
    depend on the encoder. *)
Fixpoint descend (fuel : nat) (w h q : num) : option (list (Attempt num)) :=
  match fuel with
  | O => None
  | S fuel' =>
    if n_gt q n_0_3 then
      option_map (cons (w, h, q)) (descend fuel' w h (n_sub q n_0_1))
    else if (n_gt w n_800 || n_gt h n_800)%bool then
      option_map (cons (w, h, q))
        (descend fuel' (fst (shrink w h)) (snd (shrink w h)) n_0_7)
    else Some [(w, h, q)]
  end.

(** [lower n q]: the quality after [n] decrements. *)
Fixpoint lower (n : nat) (q : num) : num :=
  match n with
  | O => q
  | S n' => lower n' (n_sub q n_0_1)
  end.

(** [lowered q n]: the [n] qualities tried from [q] on. *)
Fixpoint lowered (q : num) (n : nat) : list num :=
  match n with
  | O => []
  | S n' => q :: lowered (n_sub q n_0_1) n'
  end.

(** The attempt at size [w] x [h] and quality [q]. *)
Definition at_size (w h q : num) : Attempt num := (w, h, q).

(** An attempt whose canvas had a context and whose encoding exceeded the
    budget. *)
Definition exceeded (env : Browser num) (maxSize : Z) (a : Attempt num) : Prop :=
  over_budget env maxSize (attempt_width a) (attempt_height a) (attempt_quality a).

(** The resize of [w] x [h] leaves no side above 800. *)
Definition shrink_within_800 (w h : num) : Prop :=
  n_gt (fst (shrink w h)) n_800 = false /\ n_gt (snd (shrink w h)) n_800 = false.

(** A run preceded by earlier attempts. *)
Definition prepend (pre : list (Attempt num)) (r : option (Run num))
    : option (Run num) :=
  match r with
  | Some (log, out) => Some (pre ++ log, out)
  | None => None
  end.

End Vocabulary.

(** Whether a name holds a dot, and the extension read off a last segment:
    lower-cased, ["jpg"] when empty. *)
Fixpoint has_dot (s : string) : bool :=
  match s with
  | EmptyString => false
  | String c rest => (Ascii.eqb c "."%char || has_dot rest)%bool
  end.

Definition lowered_ext (e : string) : string :=
  match ImageUtils.toLowerCase e with
  | EmptyString => "jpg"%string
  | ext => ext
  end.

(** Exact arithmetic: the longer side of an attempt, and its aspect ratio
    compared (cross-multiplied) with that of [w] x [h]. *)
Definition longer_side (a : Attempt Q) : Q :=
  Qmax (attempt_width a) (attempt_height a).

Definition same_aspect (w h : Q) (a : Attempt Q) : Prop :=
  (attempt_width a * h == w * attempt_height a)%Q.

(** [canvas.width = x]: the canvas keeps a whole number of pixels, the
    number truncated; on the non-negative sizes of the search, its floor. *)
Definition canvas_pixels (x : Q) : Z := Qfloor x.

(** The quality [n] decrements above the floor. *)
Definition level (n : nat) : Q := (0.3 + inject_Z (Z.of_nat n) * 0.1)%Q.

(** The number of decrements that bring [q] to the floor. *)
Definition quality_steps (q : Q) : nat :=
  Z.to_nat (Qceiling ((q - 0.3) * 10)).

(** The bound on the number of encoding attempts of a search started at
    quality [q]: the ladder from [q], and after the one possible resize the
    ladder 0.7, 0.6, 0.5, 0.4, 0.3. *)
Definition attempts_bound (q : Q) : nat := (S (quality_steps q) + 5)%nat.

(** ** Sample inputs *)

(** A browser in which every read and decode succeeds, with an image of
    [w0] x [h0] pixels whose every encoding takes [bytes] bytes. *)
Definition noise {num : Type} (w0 h0 : num) (bytes : Z) : Browser num := {|
  readAsDataURL := fun _ => reader_onload (Some "data:image/jpeg;base64,"%string);
  Image_src := fun _ => img_onload w0 h0;
  getContext := fun _ _ _ => true;
  toBlob := fun _ _ _ _ => Some bytes
|}.

(** A browser whose file reader fails, and one whose decoder fails. *)
Definition unreadable {num : Type} : Browser num := {|
  readAsDataURL := fun _ => reader_onerror;
  Image_src := fun _ => img_onerror;
  getContext := fun _ _ _ => true;
  toBlob := fun _ _ _ _ => None
|}.

Definition corrupt {num : Type} : Browser num := {|
  readAsDataURL := fun _ => reader_onload (Some "data:image/jpeg;base64,"%string);
  Image_src := fun _ => img_onerror;
  getContext := fun _ _ _ => true;
  toBlob := fun _ _ _ _ => None
|}.

Definition photo : File :=
  new_File (mkBlob 10485760 "image/jpeg") "photo.jpg" "image/jpeg".

Definition animation : File :=
  new_File (mkBlob 204800 "image/gif") "animation.gif" "image/gif".

Definition drawing : File :=
  new_File (mkBlob 204800 "image/png") "drawing.png" "image/png".

(** The default budget, [4 * 1024 * 1024] bytes. *)
Definition maxSize_default : Z := 4 * 1024 * 1024.

(** The first thirteen attempts of the binary64 run on a 4000 x 4000 image
    none of whose encodings fits: eight at 1920 x 1920, five at 800 x 800. *)
Definition floor_walk_binary64 : list (Attempt float) :=
  [(1920, 1920, 0.92); (1920, 1920, 0.92 - 0.1); (1920, 1920, 0.92 - 0.1 - 0.1);
   (1920, 1920, 0.92 - 0.1 - 0.1 - 0.1);
   (1920, 1920, 0.92 - 0.1 - 0.1 - 0.1 - 0.1);
   (1920, 1920, 0.92 - 0.1 - 0.1 - 0.1 - 0.1 - 0.1);
   (1920, 1920, 0.92 - 0.1 - 0.1 - 0.1 - 0.1 - 0.1 - 0.1);
   (1920, 1920, 0.92 - 0.1 - 0.1 - 0.1 - 0.1 - 0.1 - 0.1 - 0.1);
   (800, 800, 0.7); (800, 800, 0.7 - 0.1); (800, 800, 0.7 - 0.1 - 0.1);
   (800, 800, 0.7 - 0.1 - 0.1 - 0.1);
   (800, 800, 0.7 - 0.1 - 0.1 - 0.1 - 0.1)]%float.

(** * Facts that hold in every number model *)

Section SearchFacts.

Context {num : Type} {NUM : Number num}.
Variable env : Browser num.
Variable fileName : string.
Variable maxSize : Z.

#[local] Abbreviation compress := (compressImage env fileName maxSize).

Lemma logged_Some (a : Attempt num) (r : option (Run num))
    (log : list (Attempt num)) (out : Settled File) :
  logged a r = Some (log, out) ->
  exists log', r = Some (log', out) /\ log = a :: log'.
Proof.
  destruct r as [[log' out'] |]; simpl; intros E; inversion E; subst.
  exists log'. split; reflexivity.
Qed.

Lemma prepend_logged (a : Attempt num) (pre : list (Attempt num))
    (r : option (Run num)) :
  logged a (prepend pre r) = prepend (a :: pre) r.
Proof. destruct r as [[log out] |]; reflexivity. Qed.

Lemma prepend_snoc (a : Attempt num) (pre : list (Attempt num))
    (r : option (Run num)) :
  prepend pre (logged a r) = prepend (pre ++ [a]) r.
Proof.
  destruct r as [[log out] |]; simpl; [| reflexivity].
  rewrite <- app_assoc. reflexivity.
Qed.

Lemma prepend_nil (r : option (Run num)) : prepend [] r = r.
Proof. destruct r as [[log out] |]; reflexivity. Qed.

(** One unfolding of the closure's body. *)
Lemma compress_unfold (fuel : nat) (w h q : num) :
  compress (S fuel) w h q =
  if negb (getContext env w h q) then
    Some ([], Rejected "Canvas context not available"%string)
  else
    match canvas_toBlob env w h mimeType q with
    | None => Some ([(w, h, q)], Rejected "Failed to create blob"%string)
    | Some blob =>
      if (blob_size blob <=? maxSize)%Z then
        Some ([(w, h, q)], Resolved (new_File blob fileName mimeType))
      else if n_gt q n_0_3 then
        logged (w, h, q) (compress fuel w h (n_sub q n_0_1))
      else if (n_gt w n_800 || n_gt h n_800)%bool then
        logged (w, h, q) (compress fuel (fst (shrink w h)) (snd (shrink w h)) n_0_7)
      else
        Some ([(w, h, q)], Resolved (new_File blob fileName mimeType))
    end.
Proof.
  simpl. destruct (shrink w h). reflexivity.
Qed.

(** The ways an attempt continues. *)
Lemma compress_lower_quality (fuel : nat) (w h q : num) :
  over_budget env maxSize w h q -> n_gt q n_0_3 = true ->
  compress (S fuel) w h q = logged (w, h, q) (compress fuel w h (n_sub q n_0_1)).
Proof.
  intros [Hctx [size [Hblob Hsize]]] Hq. rewrite compress_unfold.
  unfold canvas_toBlob. rewrite Hctx, Hblob. simpl.
  replace (size <=? maxSize)%Z with false by (symmetry; apply Z.leb_gt; exact Hsize).
  rewrite Hq. reflexivity.
Qed.

Lemma compress_shrink (fuel : nat) (w h q : num) :
  over_budget env maxSize w h q -> n_gt q n_0_3 = false ->
  (n_gt w n_800 || n_gt h n_800)%bool = true ->
  compress (S fuel) w h q =
  logged (w, h, q) (compress fuel (fst (shrink w h)) (snd (shrink w h)) n_0_7).
Proof.
  intros [Hctx [size [Hblob Hsize]]] Hq Hdim. rewrite compress_unfold.
  unfold canvas_toBlob. rewrite Hctx, Hblob. simpl.
  replace (size <=? maxSize)%Z with false by (symmetry; apply Z.leb_gt; exact Hsize).
  rewrite Hq, Hdim. reflexivity.
Qed.

Lemma compress_floor (fuel : nat) (w h q : num) (size : Z) :
  getContext env w h q = true -> toBlob env w h mimeType q = Some size ->
  n_gt q n_0_3 = false -> (n_gt w n_800 || n_gt h n_800)%bool = false ->
  compress (S fuel) w h q =
  Some ([(w, h, q)], Resolved (new_File (mkBlob size mimeType) fileName mimeType)).
Proof.
  intros Hctx Hblob Hq Hdim. rewrite compress_unfold.
  unfold canvas_toBlob. rewrite Hctx, Hblob. simpl.
  rewrite Hq, Hdim. destruct (size <=? maxSize)%Z; reflexivity.
Qed.

Lemma compress_fits (fuel : nat) (w h q : num) (size : Z) :
  getContext env w h q = true -> toBlob env w h mimeType q = Some size ->
  (size <= maxSize)%Z ->
  compress (S fuel) w h q =
  Some ([(w, h, q)], Resolved (new_File (mkBlob size mimeType) fileName mimeType)).
Proof.
  intros Hctx Hblob Hsize. rewrite compress_unfold.
  unfold canvas_toBlob. rewrite Hctx, Hblob. simpl.
  apply Z.leb_le in Hsize. rewrite Hsize. reflexivity.
Qed.

(** More fuel does not change a run that settled. *)
Lemma compress_fuel_mono (fuel : nat) :
  forall (w h q : num) (r : Run num),
  compress fuel w h q = Some r -> compress (S fuel) w h q = Some r.
Proof.
  induction fuel as [| k IH]; intros w h q r E; [discriminate |].
  rewrite compress_unfold in E |- *.
  destruct (negb (getContext env w h q)); [exact E |].
  destruct (canvas_toBlob env w h mimeType q) as [blob |]; [| exact E].
  destruct (blob_size blob <=? maxSize)%Z; [exact E |].
  destruct (n_gt q n_0_3).
  - destruct (compress k w h (n_sub q n_0_1)) as [r' |] eqn:E'; [| discriminate].
    rewrite (IH _ _ _ _ E'). exact E.
  - destruct (n_gt w n_800 || n_gt h n_800)%bool; [| exact E].
    destruct (compress k (fst (shrink w h)) (snd (shrink w h)) n_0_7)
      as [r' |] eqn:E'; [| discriminate].
    rewrite (IH _ _ _ _ E'). exact E.
Qed.

Lemma compress_fuel_le (fuel fuel' : nat) (w h q : num) (r : Run num) :
  (fuel <= fuel')%nat ->
  compress fuel w h q = Some r -> compress fuel' w h q = Some r.
Proof.
  induction 1 as [| m Hle IH]; intros E; [exact E |].
  apply compress_fuel_mono, IH, E.
Qed.

(** What a resolved search returns: the encoding of the last attempt, which
    either fits the budget or was made past both floors. *)
Lemma compress_resolved (fuel : nat) :
  forall (w h q : num) (log : list (Attempt num)) (f : File),
  compress fuel w h q = Some (log, Resolved f) ->
  exists (pre : list (Attempt num)) (w' h' q' : num),
    log = pre ++ [(w', h', q')] /\
    canvas_toBlob env w' h' mimeType q' = Some (file_bits f) /\
    f = new_File (file_bits f) fileName mimeType /\
    ((blob_size (file_bits f) <= maxSize)%Z \/
     (n_gt q' n_0_3 = false /\ n_gt w' n_800 = false /\ n_gt h' n_800 = false)).
Proof.
  induction fuel as [| k IH]; intros w h q log f E; [discriminate |].
  rewrite compress_unfold in E.
  destruct (negb (getContext env w h q)); [discriminate |].
  destruct (canvas_toBlob env w h mimeType q) as [blob |] eqn:Hblob; [| discriminate].
  destruct (blob_size blob <=? maxSize)%Z eqn:Hfit.
  { inversion E; subst. exists [], w, h, q. simpl.
    repeat split; auto. left. apply Z.leb_le. exact Hfit. }
  destruct (n_gt q n_0_3) eqn:Hq.
  { apply logged_Some in E. destruct E as [log' [E ->]].
    destruct (IH _ _ _ _ _ E) as [pre [w' [h' [q' [-> R]]]]].
    exists ((w, h, q) :: pre), w', h', q'. split; [reflexivity | exact R]. }
  destruct (n_gt w n_800 || n_gt h n_800)%bool eqn:Hdim.
  { apply logged_Some in E. destruct E as [log' [E ->]].
    destruct (IH _ _ _ _ _ E) as [pre [w' [h' [q' [-> R]]]]].
    exists ((w, h, q) :: pre), w', h', q'. split; [reflexivity | exact R]. }
  inversion E; subst. exists [], w, h, q. simpl.
  apply orb_false_iff in Hdim. destruct Hdim as [Hw Hh].
  repeat split; auto.
Qed.

(** The only reasons the search rejects with. *)
Lemma compress_rejected (fuel : nat) :
  forall (w h q : num) (log : list (Attempt num)) (reason : Error),
  compress fuel w h q = Some (log, Rejected reason) ->
  (reason = SurfaceError /\ exists w' h' q', getContext env w' h' q' = false) \/
  (reason = EncodeError /\ exists w' h' q', toBlob env w' h' mimeType q' = None).
Proof.
  induction fuel as [| k IH]; intros w h q log reason E; [discriminate |].
  rewrite compress_unfold in E.
  destruct (getContext env w h q) eqn:Hctx; simpl in E.
  2:{ inversion E; subst. left. split; [reflexivity |]. exists w, h, q. exact Hctx. }
  unfold canvas_toBlob in E.
  destruct (toBlob env w h mimeType q) as [size |] eqn:Hblob.
  2:{ inversion E; subst. right. split; [reflexivity |]. exists w, h, q. exact Hblob. }
  simpl in E.
  destruct (size <=? maxSize)%Z; [discriminate |].
  destruct (n_gt q n_0_3).
  { apply logged_Some in E. destruct E as [log' [E _]]. exact (IH _ _ _ _ _ E). }
  destruct (n_gt w n_800 || n_gt h n_800)%bool; [| discriminate].
  apply logged_Some in E. destruct E as [log' [E _]]. exact (IH _ _ _ _ _ E).
Qed.

(** When no encoding fits, the search follows [descend] and resolves with
    the encoding of its last attempt. *)
Lemma compress_descend (fuel : nat) :
  (forall w h q, over_budget env maxSize w h q) ->
  forall (w h q : num) (log : list (Attempt num)),
  descend fuel w h q = Some log ->
  exists (pre : list (Attempt num)) (w' h' q' : num) (size : Z),
    log = pre ++ [(w', h', q')] /\
    toBlob env w' h' mimeType q' = Some size /\ (maxSize < size)%Z /\
    compress fuel w h q =
    Some (log, Resolved (new_File (mkBlob size mimeType) fileName mimeType)).
Proof.
  intros Hover. induction fuel as [| k IH]; intros w h q log E; [discriminate |].
  simpl in E.
  destruct (n_gt q n_0_3) eqn:Hq.
  { destruct (descend k w h (n_sub q n_0_1)) as [log' |] eqn:E'; [| discriminate].
    inversion E; subst.
    destruct (IH _ _ _ _ E') as [pre [w' [h' [q' [size [-> [Hb [Hs R]]]]]]]].
    exists ((w, h, q) :: pre), w', h', q', size. repeat split; auto.
    rewrite (compress_lower_quality k w h q (Hover w h q) Hq), R. reflexivity. }
  destruct (n_gt w n_800 || n_gt h n_800)%bool eqn:Hdim.
  { destruct (descend k (fst (shrink w h)) (snd (shrink w h)) n_0_7)
      as [log' |] eqn:E'; [| discriminate].
    inversion E; subst.
    destruct (IH _ _ _ _ E') as [pre [w' [h' [q' [size [-> [Hb [Hs R]]]]]]]].
    exists ((w, h, q) :: pre), w', h', q', size. repeat split; auto.
    rewrite (compress_shrink k w h q (Hover w h q) Hq Hdim), R. reflexivity. }
  inversion E; subst.
  destruct (Hover w h q) as [Hctx [size [Hb Hs]]].
  exists [], w, h, q, size. repeat split; auto.
  apply compress_floor; assumption.
Qed.

(** While every encoding at [w] x [h] exceeds the budget and the quality is
    above 0.3, the search re-encodes at the same size. *)
Lemma compress_lowered (n : nat) :
  forall (fuel : nat) (w h q : num),
  (forall q', over_budget env maxSize w h q') ->
  Forall (fun q' => n_gt q' n_0_3 = true) (lowered q n) ->
  compress (n + fuel) w h q =
  prepend (map (at_size w h) (lowered q n)) (compress fuel w h (lower n q)).
Proof.
  induction n as [| n IH]; intros fuel w h q Hover Hq; simpl lowered; simpl lower.
  - simpl. symmetry. apply prepend_nil.
  - inversion Hq as [| q0 l Hq0 Hrest]; subst.
    change (S n + fuel)%nat with (S (n + fuel)).
    rewrite (compress_lower_quality _ w h q (Hover q) Hq0).
    rewrite (IH fuel w h _ Hover Hrest). simpl map. apply prepend_logged.
Qed.

End SearchFacts.

(** ** The input's fate *)

Section SanitizeFacts.

Context {num : Type} {NUM : Number num}.
Variable env : Browser num.

Lemma removeExifData_decoded (fuel : nat) (file : File) (maxSize : Z)
    (maxDimension w0 h0 : num) :
  decodes_to env file w0 h0 ->
  removeExifData env fuel file maxSize maxDimension =
  compressImage env (file_name file) maxSize fuel
    (fst (initialDimensions w0 h0 maxDimension))
    (snd (initialDimensions w0 h0 maxDimension)) n_0_92.
Proof.
  intros [result [src [Hr [Ht Hi]]]]. unfold removeExifData.
  rewrite Hr, Ht, Hi. destruct (initialDimensions w0 h0 maxDimension). reflexivity.
Qed.

Lemma removeExifData_read_fails (fuel : nat) (file : File) (maxSize : Z)
    (maxDimension : num) :
  read_fails env file ->
  removeExifData env fuel file maxSize maxDimension = Some ([], Rejected ReadError).
Proof.
  intros [Hr | [result [Hr Ht]]]; unfold removeExifData; rewrite Hr;
    [| rewrite Ht]; reflexivity.
Qed.

Lemma removeExifData_decode_fails (fuel : nat) (file : File) (maxSize : Z)
    (maxDimension : num) :
  decode_fails env file ->
  removeExifData env fuel file maxSize maxDimension = Some ([], Rejected DecodeError).
Proof.
  intros [result [src [Hr [Ht Hi]]]]. unfold removeExifData.
  rewrite Hr, Ht, Hi. reflexivity.
Qed.

(** The three fates of the input, one of which holds. *)
Lemma input_fate (file : File) :
  read_fails env file \/ decode_fails env file \/
  exists w0 h0, decodes_to env file w0 h0.
Proof.
  unfold read_fails, decode_fails, decodes_to.
  destruct (readAsDataURL env file) as [| result] eqn:Hr; [left; left; reflexivity |].
  destruct (truthy result) as [src |] eqn:Ht.
  - right. destruct (Image_src env src) as [| w0 h0] eqn:Hi.
    + left. exists result, src. auto.
    + right. exists w0, h0, result, src. auto.
  - left. right. exists result. auto.
Qed.

(** The file a run resolves with: named as the input, declared and encoded
    as JPEG. *)
Lemma removeExifData_output (fuel : nat) (file : File) (maxSize : Z)
    (maxDimension : num) (log : list (Attempt num)) (f : File) :
  removeExifData env fuel file maxSize maxDimension = Some (log, Resolved f) ->
  file_name f = file_name file /\ file_type f = "image/jpeg"%string /\
  blob_type (file_bits f) = "image/jpeg"%string.
Proof.
  intros E.
  destruct (input_fate file) as [Hr | [Hd | [w0 [h0 Hdec]]]].
  - rewrite (removeExifData_read_fails _ _ _ _ Hr) in E. discriminate.
  - rewrite (removeExifData_decode_fails _ _ _ _ Hd) in E. discriminate.
  - rewrite (removeExifData_decoded _ _ _ _ _ _ Hdec) in E.
    apply compress_resolved in E.
    destruct E as [pre [w [h [q [_ [Hblob [Hf _]]]]]]].
    rewrite Hf. simpl. repeat split.
    unfold canvas_toBlob in Hblob.
    destruct (toBlob env w h mimeType q); [| discriminate].
    inversion Hblob as [Hbits]. reflexivity.
Qed.

End SanitizeFacts.

(** ** [Promise.all] *)

Section PromiseAllFacts.

Context {A : Type}.
Implicit Types (promises : list (option (Settled A))) (order : list nat).

Lemma all_values_Forall2 promises :
  forall values,
  all_values promises = Some values <->
  Forall2 (fun p v => p = Some (Resolved v)) promises values.
Proof.
  induction promises as [| p rest IH]; intros values; simpl.
  - split.
    + intros E. inversion E. constructor.
    + intros F. inversion F. reflexivity.
  - split.
    + destruct p as [[v | e] |]; try discriminate.
      destruct (all_values rest) as [vs |] eqn:E; [| discriminate].
      intros E'. inversion E'; subst. constructor; [reflexivity |].
      apply IH. reflexivity.
    + intros F. inversion F as [| p' v rest' vs Hp Hrest]; subst.
      apply IH in Hrest. rewrite Hrest. reflexivity.
Qed.

Lemma first_rejection_Some order promises (reason : Error) :
  first_rejection order promises = Some reason ->
  exists i, In i order /\ nth_error promises i = Some (Some (Rejected reason)).
Proof.
  induction order as [| i later IH]; simpl; [discriminate |].
  destruct (nth_error promises i) as [[[v | e] |] |] eqn:E; intros H;
    try (destruct (IH H) as [j [Hj Hn]]; exists j; auto).
  inversion H; subst. exists i. auto.
Qed.

Lemma first_rejection_None order promises :
  first_rejection order promises = None ->
  forall i reason, In i order ->
  nth_error promises i <> Some (Some (Rejected reason)).
Proof.
  induction order as [| j later IH]; simpl; intros H i reason Hin; [contradiction |].
  destruct (nth_error promises j) as [[[v | e] |] |] eqn:E; try discriminate;
    (destruct Hin as [<- | Hin]; [rewrite E; discriminate | apply IH; assumption]).
Qed.

Lemma Forall2_resolved_nth promises (values : list A) :
  Forall2 (fun p v => p = Some (Resolved v)) promises values ->
  forall i reason, nth_error promises i <> Some (Some (Rejected reason)).
Proof.
  induction 1 as [| p v rest vs Hp Hrest IH]; intros [| i] reason; simpl;
    try discriminate.
  - rewrite Hp. discriminate.
  - apply IH.
Qed.

(** [Promise.all] resolves exactly when every promise resolves, with the
    values in the order of the array. *)
Lemma Promise_all_resolved order promises (values : list A) :
  Promise_all order promises = Some (Resolved values) <->
  Forall2 (fun p v => p = Some (Resolved v)) promises values.
Proof.
  unfold Promise_all. split.
  - destruct (first_rejection order promises); [discriminate |].
    destruct (all_values promises) as [vs |] eqn:E; [| discriminate].
    intros H. inversion H; subst. apply all_values_Forall2. exact E.
  - intros F.
    destruct (first_rejection order promises) as [reason |] eqn:E.
    + apply first_rejection_Some in E. destruct E as [i [_ Hn]].
      exfalso. exact (Forall2_resolved_nth _ _ F _ _ Hn).
    + apply all_values_Forall2 in F. rewrite F. reflexivity.
Qed.

(** A promise that settled by rejecting makes [Promise.all] reject, with
    the reason of a promise that rejected. *)
Lemma Promise_all_rejected order promises (i : nat) (reason : Error) :
  In i order -> nth_error promises i = Some (Some (Rejected reason)) ->
  exists j reason', In j order /\
    nth_error promises j = Some (Some (Rejected reason')) /\
    Promise_all order promises = Some (Rejected reason').
Proof.
  intros Hin Hn. unfold Promise_all.
  destruct (first_rejection order promises) as [reason' |] eqn:E.
  - destruct (first_rejection_Some _ _ _ E) as [j [Hj Hnj]].
    exists j, reason'. auto.
  - exfalso. exact (first_rejection_None _ _ E _ _ Hin Hn).
Qed.

End PromiseAllFacts.

Lemma Forall2_map_left {A B C : Type} (f : A -> B) (R : B -> C -> Prop)
    (l : list A) (l' : list C) :
  Forall2 R (map f l) l' <-> Forall2 (fun a c => R (f a) c) l l'.
Proof.
  revert l'. induction l as [| a l IH]; intros l'; simpl; split; intros F;
    inversion F; subst; constructor; auto; apply IH; assumption.
Qed.

(** * The claims that hold in every number model *)

Section GeneralClaims.

Context {num : Type} {NUM : Number num}.

(** C6.  The batch variant resolves exactly when every item resolves, with
    the per-item results of [removeExifData] (same [maxSize] and
    [maxDimension] for each) in the order of the input.  When an item
    rejects, the batch never resolves, so no partial list is returned; once
    that rejection has settled the batch rejects, with the reason of an item
    that rejected (the first to settle), which is that item's reason when it
    is the only one to reject. *)
Theorem removeExifDataFromFiles_all_or_nothing (env : Browser num) (fuel : nat)
    (order : list nat) (files : list File) (maxSize : Z) (maxDimension : num) :
  (forall results,
     removeExifDataFromFiles env fuel order files maxSize maxDimension =
     Some (Resolved results) <->
     Forall2 (fun file result =>
                settlement (removeExifData env fuel file maxSize maxDimension) =
                Some (Resolved result)) files results) /\
  (forall i file reason,
     nth_error files i = Some file ->
     settlement (removeExifData env fuel file maxSize maxDimension) =
     Some (Rejected reason) ->
     (forall results,
        removeExifDataFromFiles env fuel order files maxSize maxDimension <>
        Some (Resolved results)) /\
     (In i order ->
      exists j file' reason',
        nth_error files j = Some file' /\ In j order /\
        settlement (removeExifData env fuel file' maxSize maxDimension) =
        Some (Rejected reason') /\
        removeExifDataFromFiles env fuel order files maxSize maxDimension =
        Some (Rejected reason') /\
        ((forall k file'' reason'',
            nth_error files k = Some file'' ->
            settlement (removeExifData env fuel file'' maxSize maxDimension) =
            Some (Rejected reason'') -> k = i) ->
         reason' = reason))).
Proof.
  unfold removeExifDataFromFiles. split.
  - intros results. rewrite Promise_all_resolved. apply Forall2_map_left.
  - intros i file reason Hfile Hrej.
    pose proof (map_nth_error
      (fun file => settlement (removeExifData env fuel file maxSize maxDimension))
      i files Hfile) as Hn.
    cbv beta in Hn. rewrite Hrej in Hn.
    split.
    + intros results E. apply Promise_all_resolved in E.
      exact (Forall2_resolved_nth _ _ E _ _ Hn).
    + intros Hin.
      destruct (Promise_all_rejected order _ i reason Hin Hn)
        as [j [reason' [Hj [Hnj Hall]]]].
      rewrite nth_error_map in Hnj.
      destruct (nth_error files j) as [file' |] eqn:Hfile'; [| discriminate].
      simpl in Hnj. inversion Hnj as [Hitem].
      exists j, file', reason'. repeat split; auto.
      intros Honly. specialize (Honly j file' reason' Hfile' Hitem). subst j.
      rewrite Hfile in Hfile'. inversion Hfile'; subst file'.
      rewrite Hrej in Hitem. inversion Hitem. reflexivity.
Qed.

(** C7.  When the image is within the dimension bound and its first
    encoding, at quality 0.92 and at the original size, fits the budget,
    [removeExifData] resolves with that encoding and the log holds that one
    attempt: no quality decrement, no resize. *)
Theorem first_attempt_accepted (env : Browser num) (fuel : nat) (file : File)
    (maxSize : Z) (maxDimension w0 h0 : num) (size : Z) :
  decodes_to env file w0 h0 ->
  n_gt w0 maxDimension = false -> n_gt h0 maxDimension = false ->
  getContext env w0 h0 n_0_92 = true ->
  toBlob env w0 h0 mimeType n_0_92 = Some size ->
  (size <= maxSize)%Z ->
  removeExifData env (S fuel) file maxSize maxDimension =
  Some ([(w0, h0, n_0_92)],
        Resolved (new_File (mkBlob size mimeType) (file_name file) mimeType)).
Proof.
  intros Hdec Hw Hh Hctx Hblob Hfit.
  rewrite (removeExifData_decoded env _ _ _ _ _ _ Hdec).
  unfold initialDimensions. rewrite Hw, Hh. cbn [orb fst snd].
  apply compress_fits; assumption.
Qed.


End GeneralClaims.

(** * Exact arithmetic *)

Section ExactArithmetic.

Open Scope Q_scope.

Ltac exact_arith :=
  cbn [n_sub n_mul n_div n_gt Math_min n_0_92 n_0_1 n_0_3 n_0_7 n_0_8 n_800
       Number_Q] in *.

Lemma Qgtb_true (a b : Q) : Qgtb a b = true <-> b < a.
Proof.
  unfold Qgtb. rewrite negb_true_iff. split.
  - intros E. apply Qnot_le_lt. intros L. apply Qle_bool_iff in L. congruence.
  - intros L. destruct (Qle_bool a b) eqn:E; [| reflexivity].
    apply Qle_bool_iff in E. lra.
Qed.

Lemma Qgtb_false (a b : Q) : Qgtb a b = false <-> a <= b.
Proof.
  unfold Qgtb. rewrite negb_false_iff. apply Qle_bool_iff.
Qed.

Lemma Qdiv_pos (a b : Q) : 0 < a -> 0 < b -> 0 < a / b.
Proof.
  intros Ha Hb. apply Qlt_shift_div_l; [exact Hb | lra].
Qed.

Lemma Qmax_cases (w h : Q) :
  Qmax w h == w /\ h <= w \/ Qmax w h == h /\ w <= h.
Proof.
  destruct (Q.max_spec w h) as [[L E] | [L E]]; [right | left]; split; lra.
Qed.

(** ** The resize *)

(** On positive dimensions the resize keeps the sides positive and the
    aspect ratio, caps both sides at 800, and makes the longer side the
    smaller of 800 and 80% of what it was. *)
Lemma shrink_spec (w h : Q) :
  0 < w -> 0 < h ->
  0 < fst (shrink w h) /\ 0 < snd (shrink w h) /\
  fst (shrink w h) * h == w * snd (shrink w h) /\
  fst (shrink w h) <= 800 /\ snd (shrink w h) <= 800 /\
  Qmax (fst (shrink w h)) (snd (shrink w h)) == Qmin (0.8 * Qmax w h) 800.
Proof.
  intros Hw Hh. unfold shrink. exact_arith.
  set (a := w / h).
  assert (Ha : 0 < a) by (apply Qdiv_pos; assumption).
  assert (Hah : a * h == w) by (unfold a; field; lra).
  set (nw := Qmin (w * 0.8) 800).
  assert (Hnw : 0 < nw /\ nw <= 800 /\ nw <= w * 0.8 /\ (nw == w * 0.8 \/ nw == 800)).
  { unfold nw. destruct (Q.min_spec (w * 0.8) 800) as [[L E] | [L E]]; rewrite E;
      repeat split; try lra. }
  destruct Hnw as [Hnw0 [Hnw8 [Hnww Hnwc]]].
  set (nh := nw / a).
  assert (Hnh : nh * a == nw) by (unfold nh; field; lra).
  assert (Hnh0 : 0 < nh) by (apply Qdiv_pos; assumption).
  pose proof (Qmax_cases w h) as Hmax.
  destruct (Qgtb nh 800) eqn:G; cbn [fst snd].
  - apply Qgtb_true in G.
    assert (Ha1 : a < 1) by nra.
    assert (Hh8 : 800 < 0.8 * h) by nra.
    repeat split; try nra.
    rewrite Q.max_r by nra. rewrite Q.min_r; [reflexivity |].
    destruct Hmax as [[E Hle] | [E Hle]]; rewrite E; nra.
  - apply Qgtb_false in G.
    repeat split; try nra.
    destruct Hmax as [[E Hle] | [E Hle]]; rewrite E.
    + rewrite Q.max_l by nra. unfold nw. rewrite (Qmult_comm w 0.8). reflexivity.
    + rewrite Q.max_r by nra.
      destruct Hnwc as [C | C].
      * rewrite Q.min_l by nra. nra.
      * assert (Ha1 : a <= 1) by nra.
        assert (Hnh8 : nh == 800) by nra.
        assert (Ha2 : a == 1) by nra.
        rewrite Q.min_r by nra. exact Hnh8.
Qed.

(** Whatever the dimensions, both sides are at most 800 after a resize. *)
Lemma shrink_le_800 (w h : Q) :
  fst (shrink w h) <= 800 /\ snd (shrink w h) <= 800.
Proof.
  unfold shrink. exact_arith.
  set (a := w / h). set (nw := Qmin (w * 0.8) 800).
  assert (Hnw : nw <= 800) by apply Q.le_min_r.
  set (nh := nw / a).
  destruct (Qgtb nh 800) eqn:G; cbn [fst snd].
  - apply Qgtb_true in G. split; [| lra].
    destruct (Qlt_le_dec 0 a) as [Ha | Ha]; [| nra].
    assert (Hnh : nh * a == nw) by (unfold nh; field; lra).
    nra.
  - apply Qgtb_false in G. split; assumption.
Qed.

(** ** The initial target dimensions *)

Lemma initialDimensions_spec (w0 h0 maxDimension : Q) :
  0 < w0 -> 0 < h0 -> 0 < maxDimension ->
  let w := fst (initialDimensions w0 h0 maxDimension) in
  let h := snd (initialDimensions w0 h0 maxDimension) in
  0 < w /\ 0 < h /\ w * h0 == w0 * h /\ Qmax w h <= maxDimension /\
  (maxDimension < Qmax w0 h0 -> Qmax w h == maxDimension) /\
  (Qmax w0 h0 <= maxDimension -> initialDimensions w0 h0 maxDimension = (w0, h0)).
Proof.
  intros Hw Hh Hm. unfold initialDimensions. exact_arith.
  set (a := w0 / h0).
  assert (Ha : 0 < a) by (apply Qdiv_pos; assumption).
  assert (Hah : a * h0 == w0) by (unfold a; field; lra).
  set (y := maxDimension / a).
  assert (Hy : y * a == maxDimension) by (unfold y; field; lra).
  assert (Hy0 : 0 < y) by (apply Qdiv_pos; assumption).
  pose proof (Qmax_cases w0 h0) as Hmax.
  destruct (Qgtb w0 maxDimension) eqn:Gw; destruct (Qgtb h0 maxDimension) eqn:Gh;
    cbn [orb]; try apply Qgtb_true in Gw; try apply Qgtb_true in Gh;
    try apply Qgtb_false in Gw; try apply Qgtb_false in Gh.
  all: try (destruct (Qgtb w0 h0) eqn:G; [apply Qgtb_true in G | apply Qgtb_false in G]).
  all: cbn [fst snd].
  all: try (assert (Ha1 : 1 < a) by nra).
  all: try (assert (Ha1 : a <= 1) by nra).
  all: destruct Hmax as [[E Hle] | [E Hle]].
  all: try (exfalso; lra).
  all: repeat split; try reflexivity; try nra.
  all: try (rewrite Q.max_l by nra; lra).
  all: try (rewrite Q.max_r by nra; lra).
  all: try (intros _; rewrite Q.max_l by nra; reflexivity).
  all: try (intros _; rewrite Q.max_r by nra; reflexivity).
  all: try (intros C; rewrite E in C; exfalso; lra).
  all: try (rewrite E; lra).
Qed.

(** ** Termination *)

Lemma level_S (n : nat) : level (S n) == level n + 0.1.
Proof.
  unfold level. rewrite Nat2Z.inj_succ. unfold Z.succ. rewrite inject_Z_plus.
  change (inject_Z 1) with 1. ring.
Qed.

Lemma level_0 : level 0 == 0.3.
Proof. reflexivity. Qed.

Lemma quality_steps_level (q : Q) : q <= level (quality_steps q).
Proof.
  unfold level, quality_steps.
  pose proof (Qle_ceiling ((q - 0.3) * 10)) as Hc.
  assert (Hz : inject_Z (Qceiling ((q - 0.3) * 10)) <=
               inject_Z (Z.of_nat (Z.to_nat (Qceiling ((q - 0.3) * 10))))).
  { rewrite <- Zle_Qle. lia. }
  lra.
Qed.

(** From the initial quality the bound is thirteen attempts. *)
Lemma attempts_bound_initial : attempts_bound 0.92 = 13%nat.
Proof. reflexivity. Qed.

Section ExactSearch.

Variable env : Browser Q.
Variable fileName : string.
Variable maxSize : Z.

#[local] Abbreviation compress := (compressImage env fileName maxSize).

Ltac settled := eexists; split; [reflexivity | simpl in *; lia].

(** Below both dimension floors the search only lowers the quality. *)
Lemma plateau (n : nat) :
  forall w h q : Q,
  w <= 800 -> h <= 800 -> q <= level n ->
  exists run, compress (S n) w h q = Some run /\
              (List.length (fst run) <= S n)%nat.
Proof.
  induction n as [| n IH]; intros w h q Hw Hh Hq; rewrite compress_unfold;
    (destruct (negb (getContext env w h q)); [settled |]);
    (destruct (canvas_toBlob env w h mimeType q) as [blob |]; [| settled]);
    (destruct (blob_size blob <=? maxSize)%Z; [settled |]);
    destruct (n_gt q n_0_3) eqn:G; exact_arith.
  - apply Qgtb_true in G. rewrite level_0 in Hq. lra.
  - apply Qgtb_false in Hw. apply Qgtb_false in Hh. rewrite Hw, Hh. simpl. settled.
  - rewrite level_S in Hq.
    destruct (IH w h (q - 0.1) Hw Hh) as [[log out] [E L]]; [lra |].
    rewrite E. simpl. settled.
  - apply Qgtb_false in Hw. apply Qgtb_false in Hh. rewrite Hw, Hh. simpl. settled.
Qed.

(** From any dimensions: the ladder from [q], one resize, the ladder from
    0.7. *)
Lemma ladder (n : nat) :
  forall w h q : Q,
  q <= level n ->
  exists run, compress (S n + 5) w h q = Some run /\
              (List.length (fst run) <= S n + 5)%nat.
Proof.
  assert (Hshrunk : forall w h k, (5 <= k)%nat ->
            exists run,
              compress k (fst (shrink w h)) (snd (shrink w h)) n_0_7 = Some run /\
              (List.length (fst run) <= 5)%nat).
  { intros w h k Hk. destruct (shrink_le_800 w h) as [Hw Hh].
    destruct (plateau 4 _ _ 0.7 Hw Hh) as [run [E L]].
    { apply Qle_bool_imp_le. reflexivity. }
    exists run. split; [| exact L].
    apply (compress_fuel_le env fileName maxSize 5 k); assumption. }
  induction n as [| n IH]; intros w h q Hq;
    change (S ?m + 5)%nat with (S (m + 5)); rewrite compress_unfold;
    (destruct (negb (getContext env w h q)); [settled |]);
    (destruct (canvas_toBlob env w h mimeType q) as [blob |]; [| settled]);
    (destruct (blob_size blob <=? maxSize)%Z; [settled |]);
    destruct (n_gt q n_0_3) eqn:G.
  - exact_arith. apply Qgtb_true in G. rewrite level_0 in Hq. lra.
  - destruct (n_gt w n_800 || n_gt h n_800)%bool; [| settled].
    destruct (Hshrunk w h (0 + 5)%nat) as [[log out] [E L]]; [lia |].
    rewrite E. simpl. settled.
  - exact_arith. rewrite level_S in Hq.
    destruct (IH w h (q - 0.1)) as [[log out] [E L]]; [lra |].
    rewrite E. simpl. settled.
  - destruct (n_gt w n_800 || n_gt h n_800)%bool; [| settled].
    destruct (Hshrunk w h (S n + 5)%nat) as [[log out] [E L]]; [lia |].
    rewrite E. simpl. settled.
Qed.

Lemma search_bounded (w h q : Q) (fuel : nat) :
  (attempts_bound q <= fuel)%nat ->
  exists log out, compress fuel w h q = Some (log, out) /\
                  (List.length log <= attempts_bound q)%nat.
Proof.
  intros Hf.
  destruct (ladder (quality_steps q) w h q (quality_steps_level q))
    as [[log out] [E L]].
  exists log, out. split; [| exact L].
  apply (compress_fuel_le env fileName maxSize (attempts_bound q) fuel); assumption.
Qed.

(** Every canvas of a search has positive sides, the aspect ratio of the
    first one, and a longer side no larger than that of the first one. *)
Lemma compress_dimensions (fuel : nat) :
  forall (w h q : Q) (log : list (Attempt Q)) (out : Settled File),
  0 < w -> 0 < h ->
  compress fuel w h q = Some (log, out) ->
  Forall (fun a => 0 < attempt_width a /\ 0 < attempt_height a /\
                   same_aspect w h a /\ longer_side a <= Qmax w h) log.
Proof.
  induction fuel as [| k IH]; intros w h q log out Hw Hh E; [discriminate |].
  assert (Hhere : 0 < attempt_width (w, h, q) /\ 0 < attempt_height (w, h, q) /\
                  same_aspect w h (w, h, q) /\ longer_side (w, h, q) <= Qmax w h).
  { unfold same_aspect, longer_side, attempt_width, attempt_height. simpl.
    repeat split; try assumption; try reflexivity. apply Qle_refl. }
  rewrite compress_unfold in E.
  destruct (negb (getContext env w h q)); [inversion E; constructor |].
  destruct (canvas_toBlob env w h mimeType q) as [blob |];
    [| inversion E; subst; constructor; [exact Hhere | constructor]].
  destruct (blob_size blob <=? maxSize)%Z;
    [inversion E; subst; constructor; [exact Hhere | constructor] |].
  destruct (n_gt q n_0_3).
  { apply logged_Some in E. destruct E as [log' [E ->]].
    constructor; [exact Hhere |]. exact (IH _ _ _ _ _ Hw Hh E). }
  destruct (n_gt w n_800 || n_gt h n_800)%bool;
    [| inversion E; subst; constructor; [exact Hhere | constructor]].
  apply logged_Some in E. destruct E as [log' [E ->]].
  constructor; [exact Hhere |].
  destruct (shrink_spec w h Hw Hh) as [Hnw [Hnh [Hratio [_ [_ Hlong]]]]].
  pose proof (IH _ _ _ _ _ Hnw Hnh E) as F.
  apply Forall_impl with (2 := F).
  intros a [Ha1 [Ha2 [Ha3 Ha4]]]. unfold same_aspect, longer_side in *.
  set (nw := fst (shrink w h)) in *. set (nh := snd (shrink w h)) in *.
  set (aw := attempt_width a) in *. set (ah := attempt_height a) in *.
  repeat split; try assumption.
  - apply (Qmult_inj_r _ _ nh); [lra |]. nra.
  - assert (Hmax0 : 0 < Qmax w h).
    { apply Qlt_le_trans with w; [exact Hw | apply Q.le_max_l]. }
    assert (Hmin : Qmin (0.8 * Qmax w h) 800 <= 0.8 * Qmax w h) by apply Q.le_min_l.
    lra.
Qed.

End ExactSearch.

(** ** The claims in exact arithmetic *)


(** C2, as amended.  When an attempt at positive dimensions exceeds the
    budget with quality at most 0.3 and a side above 800, the next call is
    [compressImage] at quality 0.7 on dimensions that keep the aspect ratio
    and whose longer side is the smaller of 800 and 80% of the current
    longer side: 800 is a cap on the new longer side. *)
Theorem shrink_step (env : Browser Q) (fileName : string) (maxSize : Z)
    (fuel : nat) (w h q : Q) :
  0 < w -> 0 < h ->
  over_budget env maxSize w h q -> q <= 0.3 -> 800 < w \/ 800 < h ->
  let nw := fst (shrink w h) in
  let nh := snd (shrink w h) in
  compressImage env fileName maxSize (S fuel) w h q =
  logged (w, h, q) (compressImage env fileName maxSize fuel nw nh 0.7) /\
  0 < nw /\ 0 < nh /\
  nw * h == w * nh /\
  Qmax nw nh == Qmin (0.8 * Qmax w h) 800.
Proof.
  intros Hw Hh Hover Hq Hdim nw nh.
  destruct (shrink_spec w h Hw Hh) as [Hnw [Hnh [Hratio [_ [_ Hlong]]]]].
  repeat split; try assumption.
  assert (Gq : n_gt q n_0_3 = false) by (apply Qgtb_false; exact Hq).
  assert (Gd : (n_gt w n_800 || n_gt h n_800)%bool = true).
  { apply orb_true_iff.
    destruct Hdim as [Hd | Hd]; [left | right]; apply Qgtb_true; exact Hd. }
  exact (compress_shrink env fileName maxSize fuel w h q Hover Gq Gd).
Qed.

Lemma shrink_step_witness :
  over_budget (noise 1920 1080 5000000) maxSize_default 1920 1080 0.22 /\
  Qmax (fst (shrink 1920 1080)) (snd (shrink 1920 1080)) ==
  Qmin (0.8 * Qmax 1920 1080) 800.
Proof.
  assert (Hover : over_budget (noise 1920 1080 5000000) maxSize_default
                    1920 1080 0.22).
  { split; [reflexivity |]. exists 5000000%Z. split; reflexivity. }
  split; [exact Hover |].
  apply (shrink_step (noise 1920 1080 5000000) "photo.jpg" maxSize_default 0
           1920 1080 0.22); try reflexivity; try exact Hover.
  - apply Qle_bool_imp_le. reflexivity.
  - left. reflexivity.
Defined.

(** C2 as stated fails: a 900 x 900 attempt over budget at quality 0.3 is
    followed by an attempt at 720 x 720, whose longer side is below 800. *)
Lemma shrink_drops_below_800 :
  over_budget (noise 900 900 5000000) maxSize_default 900 900 0.3 /\
  0.3 <= 0.3 /\ 800 < 900 /\
  compressImage (noise 900 900 5000000) "photo.jpg" maxSize_default 2 900 900 0.3 =
  logged (900, 900, 0.3)
    (compressImage (noise 900 900 5000000) "photo.jpg" maxSize_default 1
       (fst (shrink 900 900)) (snd (shrink 900 900)) 0.7) /\
  fst (shrink 900 900) == 720 /\ snd (shrink 900 900) == 720 /\
  ~ 800 <= Qmax (fst (shrink 900 900)) (snd (shrink 900 900)).
Proof.
  split; [split; [reflexivity | exists 5000000%Z; split; reflexivity] |].
  split; [apply Qle_refl |].
  repeat split; try reflexivity.
  intros C. apply Qle_bool_iff in C. vm_compute in C. discriminate.
Qed.

(** The resize is not a 20% step above 1000 pixels: 1920 x 1080 becomes
    800 x 450. *)
Lemma shrink_1920_1080 :
  fst (shrink 1920 1080) == 800 /\ snd (shrink 1920 1080) == 450.
Proof. split; reflexivity. Qed.

(** C3.  For an image decoded to positive [w0] x [h0] and a positive
    [maxDimension]: when the longer side exceeds [maxDimension] the search
    starts at dimensions whose longer side equals [maxDimension] and whose
    aspect ratio is that of the image, and otherwise at [w0] x [h0]; every
    file the run resolves with is the encoding of a canvas whose longer side
    is at most [maxDimension] and whose aspect ratio is that of the image. *)
Theorem dimensions_bounded_aspect_preserved (env : Browser Q) (file : File)
    (maxSize : Z) (maxDimension w0 h0 : Q) :
  0 < w0 -> 0 < h0 -> 0 < maxDimension ->
  decodes_to env file w0 h0 ->
  let w := fst (initialDimensions w0 h0 maxDimension) in
  let h := snd (initialDimensions w0 h0 maxDimension) in
  (maxDimension < Qmax w0 h0 -> Qmax w h == maxDimension /\ w * h0 == w0 * h) /\
  (Qmax w0 h0 <= maxDimension -> w = w0 /\ h = h0) /\
  (forall fuel,
     removeExifData env fuel file maxSize maxDimension =
     compressImage env (file_name file) maxSize fuel w h 0.92) /\
  (forall fuel log f,
     removeExifData env fuel file maxSize maxDimension = Some (log, Resolved f) ->
     exists pre a,
       log = pre ++ [a] /\
       canvas_toBlob env (attempt_width a) (attempt_height a) mimeType
                     (attempt_quality a) = Some (file_bits f) /\
       longer_side a <= maxDimension /\ same_aspect w0 h0 a).
Proof.
  intros Hw Hh Hm Hdec w h.
  destruct (initialDimensions_spec w0 h0 maxDimension Hw Hh Hm)
    as [Hw' [Hh' [Hratio [Hlong [Hbig Hsmall]]]]].
  fold w h in Hw', Hh', Hratio, Hlong, Hbig.
  split; [| split; [| split]].
  - intros Hover. split; [apply Hbig; exact Hover | exact Hratio].
  - intros Hwithin. unfold w, h. rewrite (Hsmall Hwithin). split; reflexivity.
  - intros fuel.
    exact (removeExifData_decoded env fuel file maxSize maxDimension w0 h0 Hdec).
  - intros fuel log f E.
    rewrite (removeExifData_decoded env _ _ _ _ _ _ Hdec) in E. fold w h in E.
    pose proof (compress_dimensions env _ _ fuel _ _ _ _ _ Hw' Hh' E) as F.
    apply compress_resolved in E.
    destruct E as [pre [w' [h' [q' [-> [Hblob _]]]]]].
    exists pre, (w', h', q'). split; [reflexivity |]. split; [exact Hblob |].
    apply Forall_app in F. destruct F as [_ F]. inversion F as [| a l Ha _]; subst.
    destruct Ha as [Ha1 [Ha2 [Ha3 Ha4]]].
    unfold same_aspect, longer_side in *.
    set (aw := attempt_width (w', h', q')) in *.
    set (ah := attempt_height (w', h', q')) in *.
    split; [lra |].
    apply (Qmult_inj_r _ _ h); [lra |]. nra.
Qed.

Lemma dimensions_bounded_aspect_preserved_witness :
  decodes_to (noise 6000 4000 3000000) photo 6000 4000 /\
  Qmax (fst (initialDimensions 6000 4000 1920))
       (snd (initialDimensions 6000 4000 1920)) == 1920 /\
  fst (initialDimensions 6000 4000 1920) * 4000 ==
  6000 * snd (initialDimensions 6000 4000 1920).
Proof.
  assert (Hdec : decodes_to (noise 6000 4000 3000000) photo 6000 4000).
  { exists (Some "data:image/jpeg;base64,"%string), "data:image/jpeg;base64,"%string.
    repeat split. }
  split; [exact Hdec |].
  apply (dimensions_bounded_aspect_preserved (noise 6000 4000 3000000) photo
           maxSize_default 1920 6000 4000); try reflexivity; exact Hdec.
Defined.

(** The pixel sizes of such a canvas: the longer side is still at most
    [maxDimension], and the aspect ratio is that of the image up to the
    truncation of each side by less than one pixel. *)
Lemma canvas_pixels_tolerance (w0 h0 : Q) (a : Attempt Q) (maxDimension : Q) :
  0 < w0 -> 0 < h0 ->
  longer_side a <= maxDimension -> same_aspect w0 h0 a ->
  let pw := inject_Z (canvas_pixels (attempt_width a)) in
  let ph := inject_Z (canvas_pixels (attempt_height a)) in
  Qmax pw ph <= maxDimension /\
  - h0 < pw * h0 - w0 * ph /\ pw * h0 - w0 * ph < w0.
Proof.
  intros Hw Hh Hlong Hsame pw ph. unfold same_aspect, longer_side in *.
  set (aw := attempt_width a) in *. set (ah := attempt_height a) in *.
  assert (Hpw : pw <= aw /\ aw < pw + 1).
  { unfold pw, canvas_pixels. split; [apply Qfloor_le |].
    pose proof (Qlt_floor aw) as L. rewrite inject_Z_plus in L. exact L. }
  assert (Hph : ph <= ah /\ ah < ph + 1).
  { unfold ph, canvas_pixels. split; [apply Qfloor_le |].
    pose proof (Qlt_floor ah) as L. rewrite inject_Z_plus in L. exact L. }
  destruct Hpw as [Hpw1 Hpw2]. destruct Hph as [Hph1 Hph2].
  split; [| split; nra].
  apply Q.max_lub.
  - apply Qle_trans with aw; [exact Hpw1 |].
    apply Qle_trans with (Qmax aw ah); [apply Q.le_max_l | exact Hlong].
  - apply Qle_trans with ah; [exact Hph1 |].
    apply Qle_trans with (Qmax aw ah); [apply Q.le_max_r | exact Hlong].
Qed.

(** The scenario of the specification: 6000 x 4000 starts at 1920 x 1280. *)
Lemma initialDimensions_6000_4000 :
  fst (initialDimensions 6000 4000 1920) == 1920 /\
  snd (initialDimensions 6000 4000 1920) == 1280.
Proof. split; reflexivity. Qed.



(** C10.  When every encoding at the initial target dimensions exceeds the
    budget, the first eight attempts are made there at the qualities 0.92,
    0.82, 0.72, 0.62, 0.52, 0.42, 0.32 and 0.22; the eighth, at 0.22, is
    below 0.3; the resize to the next dimensions (or, with both sides
    within 800, the acceptance of the 0.22 encoding) comes only after it. *)
Theorem quality_ladder_before_shrink (env : Browser Q) (file : File)
    (maxSize : Z) (maxDimension w0 h0 : Q) :
  decodes_to env file w0 h0 ->
  let w := fst (initialDimensions w0 h0 maxDimension) in
  let h := snd (initialDimensions w0 h0 maxDimension) in
  (forall q, over_budget env maxSize w h q) ->
  Forall2 Qeq (lowered 0.92 8) [0.92; 0.82; 0.72; 0.62; 0.52; 0.42; 0.32; 0.22] /\
  lower 7 0.92 == 0.22 /\ lower 7 0.92 < 0.3 /\
  (800 < w \/ 800 < h ->
   forall fuel,
     removeExifData env (8 + fuel) file maxSize maxDimension =
     prepend (map (at_size w h) (lowered 0.92 8))
       (compressImage env (file_name file) maxSize fuel
          (fst (shrink w h)) (snd (shrink w h)) 0.7)) /\
  (w <= 800 /\ h <= 800 ->
   forall fuel, exists size,
     toBlob env w h mimeType (lower 7 0.92) = Some size /\
     removeExifData env (8 + fuel) file maxSize maxDimension =
     Some (map (at_size w h) (lowered 0.92 8),
           Resolved (new_File (mkBlob size mimeType) (file_name file) mimeType))).
Proof.
  intros Hdec w h Hover.
  assert (Hrun : forall fuel,
            removeExifData env (8 + fuel) file maxSize maxDimension =
            prepend (map (at_size w h) (lowered 0.92 7))
              (compressImage env (file_name file) maxSize (S fuel) w h
                 (lower 7 0.92))).
  { intros fuel.
    rewrite (removeExifData_decoded env _ _ _ _ _ _ Hdec). fold w h.
    change (8 + fuel)%nat with (7 + S fuel)%nat.
    apply (compress_lowered env (file_name file) maxSize 7 (S fuel) w h 0.92 Hover).
    repeat constructor. }
  assert (Gq : n_gt (lower 7 0.92) n_0_3 = false) by reflexivity.
  split; [| split; [| split; [| split]]].
  - repeat constructor.
  - reflexivity.
  - reflexivity.
  - intros Hdim fuel. rewrite Hrun.
    assert (Gd : (n_gt w n_800 || n_gt h n_800)%bool = true).
    { apply orb_true_iff.
      destruct Hdim as [Hd | Hd]; [left | right]; apply Qgtb_true; exact Hd. }
    rewrite (compress_shrink env (file_name file) maxSize fuel w h _ (Hover _) Gq Gd).
    rewrite prepend_snoc. reflexivity.
  - intros [Hw Hh] fuel.
    destruct (Hover (lower 7 0.92)) as [Hctx [size [Hblob Hsize]]].
    exists size. split; [exact Hblob |]. rewrite Hrun.
    assert (Gd : (n_gt w n_800 || n_gt h n_800)%bool = false).
    { apply orb_false_iff. split; apply Qgtb_false; assumption. }
    rewrite (compress_floor env (file_name file) maxSize fuel w h _ size
               Hctx Hblob Gq Gd).
    reflexivity.
Qed.

Lemma quality_ladder_before_shrink_witness :
  decodes_to (noise 4000 4000 5000000) photo 4000 4000 /\
  Forall2 Qeq (lowered 0.92 8) [0.92; 0.82; 0.72; 0.62; 0.52; 0.42; 0.32; 0.22] /\
  lower 7 0.92 == 0.22 /\ lower 7 0.92 < 0.3.
Proof.
  assert (Hdec : decodes_to (noise 4000 4000 5000000) photo 4000 4000).
  { exists (Some "data:image/jpeg;base64,"%string), "data:image/jpeg;base64,"%string.
    repeat split. }
  split; [exact Hdec |].
  refine (let H := quality_ladder_before_shrink (noise 4000 4000 5000000) photo
                     maxSize_default 1920 4000 4000 Hdec _ in
          conj (proj1 H) (conj (proj1 (proj2 H)) (proj1 (proj2 (proj2 H))))).
  intros q. split; [reflexivity |]. exists 5000000%Z. split; reflexivity.
Defined.

End ExactArithmetic.

(** C7 at the scenario of the specification: a 500 x 500 image whose first
    encoding takes 50 KB. *)
Lemma first_attempt_accepted_witness :
  decodes_to (noise 500 500 51200) photo 500%Q 500%Q /\
  removeExifData (noise 500 500 51200) 1 photo maxSize_default 1920%Q =
  Some ([(500%Q, 500%Q, 0.92%Q)],
        Resolved (new_File (mkBlob 51200 mimeType) "photo.jpg" mimeType)).
Proof.
  assert (Hdec : decodes_to (noise 500 500 51200) photo 500%Q 500%Q).
  { exists (Some "data:image/jpeg;base64,"%string), "data:image/jpeg;base64,"%string.
    repeat split. }
  split; [exact Hdec |].
  refine (first_attempt_accepted (noise 500 500 51200) 0 photo maxSize_default
            1920%Q 500%Q 500%Q 51200 Hdec _ _ _ _ _); try reflexivity.
  intros C. discriminate C.
Defined.

(** The scenario of C4 in exact arithmetic: a 4000 x 4000 image none of
    whose encodings fits ends, after thirteen attempts, at 800 x 800 and
    quality 0.3. *)
Lemma adversarial_4000_exact (env : Browser Q) (file : File) (maxSize : Z) :
  decodes_to env file 4000%Q 4000%Q ->
  (forall w h q, over_budget env maxSize w h q) ->
  exists pre w h q size,
    removeExifData env 13 file maxSize 1920%Q =
    Some (pre ++ [(w, h, q)],
          Resolved (new_File (mkBlob size mimeType) (file_name file) mimeType)) /\
    List.length pre = 12%nat /\
    (w == 800 /\ h == 800 /\ q == 0.3)%Q /\
    toBlob env w h mimeType q = Some size /\ (maxSize < size)%Z.
Proof.
  intros Hdec Hover.
  rewrite (removeExifData_decoded env _ _ _ _ _ _ Hdec).
  destruct (descend 13 (fst (initialDimensions 4000%Q 4000%Q 1920%Q))
              (snd (initialDimensions 4000%Q 4000%Q 1920%Q)) n_0_92)
    as [log |] eqn:E; [| vm_compute in E; discriminate].
  destruct (compress_descend env (file_name file) maxSize 13 Hover _ _ _ _ E)
    as [pre [w' [h' [q' [size [Hlog [Hblob [Hsize R]]]]]]]].
  exists pre, w', h', q', size.
  rewrite R, Hlog. split; [reflexivity |].
  vm_compute in E. inversion E as [Hwalk]. clear E. rewrite <- Hwalk in Hlog.
  match type of Hlog with
  | ?walk = _ =>
    change walk with (removelast walk ++ [last walk (0, 0, 0)%Q]) in Hlog
  end.
  apply app_inj_tail in Hlog. destruct Hlog as [Hpre Hlast].
  split; [rewrite <- Hpre; reflexivity |].
  split; [| split; assumption].
  simpl in Hlast. inversion Hlast; subst. repeat split; reflexivity.
Qed.

(** * Binary64 arithmetic *)

Section Binary64.

Open Scope float_scope.

(** The quality ladder as the runtime computes it. *)
Lemma ladder_from_0_7_binary64 :
  0.7 - 0.1 - 0.1 - 0.1 - 0.1 = 0.30000000000000004 /\
  (0.3 <? 0.7 - 0.1 - 0.1 - 0.1 - 0.1) = true /\
  0.7 - 0.1 - 0.1 - 0.1 - 0.1 - 0.1 = 0.20000000000000004 /\
  (0.20000000000000004 <? 0.3) = true.
Proof. repeat split; vm_compute; reflexivity. Qed.

(** From 0.92 the binary64 ladder makes the same eight attempts as the
    exact one, each within 1e-15 of its decimal value, the last below 0.3. *)
Lemma ladder_from_0_92_binary64 :
  forallb (fun q => 0.3 <? q) (lowered 0.92 7) = true /\
  (lower 7 0.92 <? 0.3) = true /\
  forallb (fun p => PrimFloat.abs (fst p - snd p) <? 1e-15)
    (combine (lowered 0.92 8) [0.92; 0.82; 0.72; 0.62; 0.52; 0.42; 0.32; 0.22])
  = true.
Proof. repeat split; vm_compute; reflexivity. Qed.

Lemma descend_4000_binary64 :
  descend 14 (fst (initialDimensions 4000 4000 1920))
             (snd (initialDimensions 4000 4000 1920)) n_0_92 =
  Some (floor_walk_binary64 ++ [(800, 800, 0.20000000000000004)]).
Proof. vm_compute. reflexivity. Qed.

(** C4, on the runtime's arithmetic.  For a 4000 x 4000 image none of whose
    encodings fits the budget, [removeExifData] settles after fourteen
    attempts and resolves with the over-budget encoding of an 800 x 800
    canvas made at quality 0.20000000000000004: four decrements of 0.7 give
    0.30000000000000004, which is still above 0.3, so the quality is lowered
    once more. *)
Theorem adversarial_4000_binary64 (env : Browser float) (file : File)
    (maxSize : Z) :
  decodes_to env file 4000 4000 ->
  (forall w h q, over_budget env maxSize w h q) ->
  exists size,
    removeExifData env 14 file maxSize 1920 =
    Some (floor_walk_binary64 ++ [(800, 800, 0.20000000000000004)],
          Resolved (new_File (mkBlob size mimeType) (file_name file) mimeType)) /\
    toBlob env 800 800 mimeType 0.20000000000000004 = Some size /\
    (maxSize < size)%Z /\
    (0.20000000000000004 <? 0.3) = true /\
    (0.20000000000000004 =? 0.3) = false.
Proof.
  intros Hdec Hover.
  rewrite (removeExifData_decoded env _ _ _ _ _ _ Hdec).
  destruct (compress_descend env (file_name file) maxSize 14 Hover _ _ _ _
              descend_4000_binary64)
    as [pre [w' [h' [q' [size [Hlog [Hblob [Hsize R]]]]]]]].
  apply app_inj_tail in Hlog. destruct Hlog as [_ Hlast].
  inversion Hlast; subst w' h' q'.
  exists size. repeat split; assumption || (vm_compute; reflexivity).
Qed.

Lemma adversarial_4000_binary64_witness :
  decodes_to (noise 4000 4000 5000000%Z) photo 4000 4000 /\
  exists size,
    removeExifData (noise 4000 4000 5000000%Z) 14 photo maxSize_default 1920 =
    Some (floor_walk_binary64 ++ [(800, 800, 0.20000000000000004)],
          Resolved (new_File (mkBlob size mimeType) (file_name photo) mimeType)) /\
    toBlob (noise 4000 4000 5000000%Z) 800 800 mimeType 0.20000000000000004 =
    Some size /\
    (maxSize_default < size)%Z /\
    (0.20000000000000004 <? 0.3) = true /\
    (0.20000000000000004 =? 0.3) = false.
Proof.
  assert (Hdec : decodes_to (noise 4000 4000 5000000%Z) photo 4000 4000).
  { exists (Some "data:image/jpeg;base64,"%string), "data:image/jpeg;base64,"%string.
    repeat split. }
  split; [exact Hdec |].
  apply (adversarial_4000_binary64 (noise 4000 4000 5000000%Z) photo
           maxSize_default Hdec).
  intros w h q. split; [reflexivity |]. exists 5000000%Z. split; reflexivity.
Defined.

End Binary64.

(** * The legacy variant *)

Section Legacy.

Context {num : Type}.

(** What the legacy variant resolves with: the input's name, the type
    declared from the extension, bytes in the type handed to [toBlob]. *)
Lemma legacy_output (env : Browser num) (file : File) (quality : num) (f : File) :
  ImageUtils.removeExifData env file quality = Resolved f ->
  file_name f = file_name file /\
  file_type f = ImageUtils.declaredType (file_name file) /\
  blob_type (file_bits f) = ImageUtils.encodingType file.
Proof.
  unfold ImageUtils.removeExifData, canvas_toBlob.
  destruct (readAsDataURL env file) as [| result]; [discriminate |].
  destruct (truthy result) as [src |]; [| discriminate].
  destruct (Image_src env src) as [| width height]; [discriminate |].
  destruct (negb (getContext env width height quality)); [discriminate |].
  destruct (toBlob env width height (ImageUtils.encodingType file) quality);
    [| discriminate].
  intros E. inversion E; subst. simpl. repeat split.
Qed.

(** A PNG input named [*.png] comes out declared and encoded as PNG. *)
Lemma legacy_png (env : Browser num) (file : File) (quality : num) (f : File) :
  ImageUtils.fileExtension (file_name file) = "png"%string ->
  file_type file = "image/png"%string ->
  ImageUtils.removeExifData env file quality = Resolved f ->
  file_name f = file_name file /\
  file_type f = "image/png"%string /\
  blob_type (file_bits f) = "image/png"%string.
Proof.
  intros Hext Htype E. apply legacy_output in E.
  destruct E as [Hn [Ht Hb]].
  unfold ImageUtils.declaredType in Ht. rewrite Hext in Ht.
  unfold ImageUtils.encodingType in Hb. rewrite Htype in Hb.
  repeat split; assumption.
Qed.

(** C9, at a GIF input.  The legacy variant resolves a GIF input named
    [*.gif] with a file that keeps the name and is declared [image/gif],
    while its bytes are encoded as [image/jpeg]. *)
Theorem legacy_gif_encoded_as_jpeg (env : Browser num) (file : File)
    (quality : num) (f : File) :
  ImageUtils.fileExtension (file_name file) = "gif"%string ->
  file_type file = "image/gif"%string ->
  ImageUtils.removeExifData env file quality = Resolved f ->
  file_name f = file_name file /\
  file_type f = "image/gif"%string /\
  blob_type (file_bits f) = "image/jpeg"%string.
Proof.
  intros Hext Htype E. apply legacy_output in E.
  destruct E as [Hn [Ht Hb]].
  unfold ImageUtils.declaredType in Ht. rewrite Hext in Ht.
  unfold ImageUtils.encodingType in Hb. rewrite Htype in Hb.
  repeat split; assumption.
Qed.

End Legacy.

Lemma legacy_gif_encoded_as_jpeg_witness :
  ImageUtils.removeExifData (noise 640%Q 480%Q 150000) animation 0.92%Q =
  Resolved (new_File (mkBlob 150000 "image/jpeg") "animation.gif" "image/gif") /\
  file_type (new_File (mkBlob 150000 "image/jpeg") "animation.gif" "image/gif") =
  "image/gif"%string /\
  blob_type (file_bits
    (new_File (mkBlob 150000 "image/jpeg") "animation.gif" "image/gif")) =
  "image/jpeg"%string.
Proof.
  split; [reflexivity |].
  apply (legacy_gif_encoded_as_jpeg (noise 640%Q 480%Q 150000) animation 0.92%Q
           (new_File (mkBlob 150000 "image/jpeg") "animation.gif" "image/gif"));
    reflexivity.
Defined.

(** The legacy variant on a PNG input. *)
Lemma legacy_png_example :
  ImageUtils.removeExifData (noise 640%Q 480%Q 150000) drawing 0.92%Q =
  Resolved (new_File (mkBlob 150000 "image/png") "drawing.png" "image/png").
Proof. reflexivity. Qed.

(** * Further properties of the search *)

Section MoreSearchFacts.

Context {num : Type} {NUM : Number num}.
Variable env : Browser num.

Lemma lowered_length (n : nat) : forall q : num, List.length (lowered q n) = n.
Proof.
  induction n as [| n IH]; intros q; simpl; [reflexivity | rewrite IH; reflexivity].
Qed.

(** X1.  The search stops at the first attempt that fits: in the log of a
    settled run, every attempt but the last had a canvas context and an
    encoding larger than [maxSize]. *)
Theorem search_stops_at_first_fit (fileName : string) (maxSize : Z) (fuel : nat) :
  forall (w h q : num) (log : list (Attempt num)) (out : Settled File),
  compressImage env fileName maxSize fuel w h q = Some (log, out) ->
  Forall (exceeded env maxSize) (removelast log).
Proof.
  induction fuel as [| k IH]; intros w h q log out E; [discriminate |].
  rewrite compress_unfold in E.
  destruct (getContext env w h q) eqn:Hctx; simpl in E;
    [| inversion E; constructor].
  unfold canvas_toBlob in E.
  destruct (toBlob env w h mimeType q) as [size |] eqn:Hblob;
    [| inversion E; constructor].
  simpl in E.
  destruct (size <=? maxSize)%Z eqn:Hfit; [inversion E; constructor |].
  assert (Hhere : exceeded env maxSize (w, h, q)).
  { split; [exact Hctx |]. exists size. split; [exact Hblob |].
    apply Z.leb_gt. exact Hfit. }
  assert (Hcons : forall r,
            (forall log' out', r = Some (log', out') ->
                               Forall (exceeded env maxSize) (removelast log')) ->
            logged (w, h, q) r = Some (log, out) ->
            Forall (exceeded env maxSize) (removelast log)).
  { intros r Hr L. apply logged_Some in L. destruct L as [log' [-> ->]].
    specialize (Hr log' out eq_refl).
    destruct log' as [| a log'']; [constructor |].
    change (removelast ((w, h, q) :: a :: log''))
      with ((w, h, q) :: removelast (a :: log'')).
    constructor; assumption. }
  destruct (n_gt q n_0_3).
  { apply (Hcons _ (fun l o => IH _ _ _ l o) E). }
  destruct (n_gt w n_800 || n_gt h n_800)%bool; [| inversion E; constructor].
  apply (Hcons _ (fun l o => IH _ _ _ l o) E).
Qed.

(** X2.  A larger budget never lengthens the search: the run under
    [maxSize' >= maxSize] logs a prefix of the attempts of the run under
    [maxSize], and either is the same run or stops earlier with a file whose
    size is above [maxSize] and within [maxSize']. *)
Theorem larger_budget_shorter_search (fileName : string) (maxSize maxSize' : Z)
    (fuel : nat) :
  (maxSize <= maxSize')%Z ->
  forall (w h q : num) (log : list (Attempt num)) (out : Settled File),
  compressImage env fileName maxSize fuel w h q = Some (log, out) ->
  exists log' out' rest,
    compressImage env fileName maxSize' fuel w h q = Some (log', out') /\
    log = log' ++ rest /\
    ((rest = [] /\ out' = out) \/
     exists f, out' = Resolved f /\
               (maxSize < blob_size (file_bits f) <= maxSize')%Z).
Proof.
  intros Hle. induction fuel as [| k IH]; intros w h q log out E; [discriminate |].
  rewrite compress_unfold in E. rewrite compress_unfold.
  destruct (negb (getContext env w h q)).
  { inversion E; subst. eexists _, _, []. repeat split. left. split; reflexivity. }
  destruct (canvas_toBlob env w h mimeType q) as [blob |].
  2:{ inversion E; subst. eexists _, _, []. repeat split. left. split; reflexivity. }
  destruct (blob_size blob <=? maxSize)%Z eqn:Hfit.
  { apply Z.leb_le in Hfit.
    replace (blob_size blob <=? maxSize')%Z with true
      by (symmetry; apply Z.leb_le; lia).
    inversion E; subst. eexists _, _, []. repeat split. left. split; reflexivity. }
  apply Z.leb_gt in Hfit.
  assert (Hgo : forall r r',
            (forall log0, r = Some (log0, out) ->
               exists log' out' rest, r' = Some (log', out') /\ log0 = log' ++ rest /\
                 ((rest = [] /\ out' = out) \/
                  exists f, out' = Resolved f /\
                            (maxSize < blob_size (file_bits f) <= maxSize')%Z)) ->
            logged (w, h, q) r = Some (log, out) ->
            exists log' out' rest,
              logged (w, h, q) r' = Some (log', out') /\ log = log' ++ rest /\
              ((rest = [] /\ out' = out) \/
               exists f, out' = Resolved f /\
                         (maxSize < blob_size (file_bits f) <= maxSize')%Z)).
  { intros r r' Hr L. apply logged_Some in L. destruct L as [log0 [-> ->]].
    destruct (Hr log0 eq_refl) as [log' [out' [rest [-> [-> Hout]]]]].
    exists ((w, h, q) :: log'), out', rest. repeat split. exact Hout. }
  assert (Hearly : forall r, logged (w, h, q) r = Some (log, out) ->
            (blob_size blob <= maxSize')%Z ->
            exists log' out' rest,
              Some ([(w, h, q)], Resolved (new_File blob fileName mimeType)) =
              Some (log', out') /\ log = log' ++ rest /\
              ((rest = [] /\ out' = out) \/
               exists f, out' = Resolved f /\
                         (maxSize < blob_size (file_bits f) <= maxSize')%Z)).
  { intros r L Hfit'. apply logged_Some in L. destruct L as [log0 [_ ->]].
    eexists _, _, log0. split; [reflexivity |]. split; [reflexivity |].
    right. eexists. split; [reflexivity |]. simpl. lia. }
  destruct (blob_size blob <=? maxSize')%Z eqn:Hfit'.
  { apply Z.leb_le in Hfit'.
    destruct (n_gt q n_0_3); [exact (Hearly _ E Hfit') |].
    destruct (n_gt w n_800 || n_gt h n_800)%bool; [exact (Hearly _ E Hfit') |].
    inversion E; subst. eexists _, _, []. repeat split. left. split; reflexivity. }
  destruct (n_gt q n_0_3).
  { apply (Hgo _ _ (fun l e => IH _ _ _ l out e) E). }
  destruct (n_gt w n_800 || n_gt h n_800)%bool.
  { apply (Hgo _ _ (fun l e => IH _ _ _ l out e) E). }
  inversion E; subst. eexists _, _, []. repeat split. left. split; reflexivity.
Qed.

(** The rejections of the search, with the log. *)
Lemma compress_rejected_log (fileName : string) (maxSize : Z) (fuel : nat) :
  forall (w h q : num) (log : list (Attempt num)) (reason : Error),
  compressImage env fileName maxSize fuel w h q = Some (log, Rejected reason) ->
  (reason = SurfaceError /\ exists w' h' q', getContext env w' h' q' = false) \/
  (reason = EncodeError /\
   exists pre w' h' q', log = pre ++ [(w', h', q')] /\
                        getContext env w' h' q' = true /\
                        toBlob env w' h' mimeType q' = None).
Proof.
  induction fuel as [| k IH]; intros w h q log reason E; [discriminate |].
  rewrite compress_unfold in E.
  destruct (getContext env w h q) eqn:Hctx; simpl in E.
  2:{ inversion E; subst. left. split; [reflexivity |]. exists w, h, q. exact Hctx. }
  unfold canvas_toBlob in E.
  destruct (toBlob env w h mimeType q) as [size |] eqn:Hblob.
  2:{ inversion E; subst. right. split; [reflexivity |]. exists [], w, h, q. auto. }
  simpl in E.
  destruct (size <=? maxSize)%Z; [discriminate |].
  assert (Hgo : forall r,
            (forall log', r = Some (log', Rejected reason) ->
               (reason = SurfaceError /\
                exists w' h' q', getContext env w' h' q' = false) \/
               (reason = EncodeError /\
                exists pre w' h' q', log' = pre ++ [(w', h', q')] /\
                        getContext env w' h' q' = true /\
                        toBlob env w' h' mimeType q' = None)) ->
            logged (w, h, q) r = Some (log, Rejected reason) ->
            (reason = SurfaceError /\
             exists w' h' q', getContext env w' h' q' = false) \/
            (reason = EncodeError /\
             exists pre w' h' q', log = pre ++ [(w', h', q')] /\
                        getContext env w' h' q' = true /\
                        toBlob env w' h' mimeType q' = None)).
  { intros r Hr L. apply logged_Some in L. destruct L as [log' [-> ->]].
    destruct (Hr log' eq_refl) as [S | [-> [pre [w' [h' [q' [-> R]]]]]]];
      [left; exact S |].
    right. split; [reflexivity |]. exists ((w, h, q) :: pre), w', h', q'. auto. }
  destruct (n_gt q n_0_3); [exact (Hgo _ (fun l e => IH _ _ _ l reason e) E) |].
  destruct (n_gt w n_800 || n_gt h n_800)%bool; [| discriminate].
  exact (Hgo _ (fun l e => IH _ _ _ l reason e) E).
Qed.


(** While no side exceeds 800 every attempt is made at the same size, on
    the ladder of qualities from the first one. *)
Lemma compress_same_size (fileName : string) (maxSize : Z) (fuel : nat) :
  forall (w h q : num) (log : list (Attempt num)) (out : Settled File),
  n_gt w n_800 = false -> n_gt h n_800 = false ->
  compressImage env fileName maxSize fuel w h q = Some (log, out) ->
  exists n, log = map (at_size w h) (lowered q n) /\
            forall k, n_gt (lower k q) n_0_3 = false -> (n <= S k)%nat.
Proof.
  induction fuel as [| f IH]; intros w h q log out Hw Hh E; [discriminate |].
  rewrite compress_unfold in E.
  assert (Hone : forall k, n_gt (lower k q) n_0_3 = false -> (1 <= S k)%nat)
    by (intros; lia).
  destruct (negb (getContext env w h q)).
  { inversion E; subst. exists 0%nat. split; [reflexivity | intros; lia]. }
  destruct (canvas_toBlob env w h mimeType q) as [blob |].
  2:{ inversion E; subst. exists 1%nat. split; [reflexivity | exact Hone]. }
  destruct (blob_size blob <=? maxSize)%Z.
  { inversion E; subst. exists 1%nat. split; [reflexivity | exact Hone]. }
  destruct (n_gt q n_0_3) eqn:Hq.
  { apply logged_Some in E. destruct E as [log' [E ->]].
    destruct (IH _ _ _ _ _ Hw Hh E) as [n [-> Hn]].
    exists (S n). split; [reflexivity |].
    intros [| k] Hk; simpl in Hk; [congruence |].
    specialize (Hn k Hk). lia. }
  rewrite Hw, Hh in E. simpl in E. inversion E; subst.
  exists 1%nat. split; [reflexivity | exact Hone].
Qed.

Lemma compress_same_size_settles (fileName : string) (maxSize : Z) (k : nat) :
  forall (w h q : num),
  n_gt w n_800 = false -> n_gt h n_800 = false ->
  n_gt (lower k q) n_0_3 = false ->
  exists run, compressImage env fileName maxSize (S k) w h q = Some run.
Proof.
  induction k as [| k IH]; intros w h q Hw Hh Hq; rewrite compress_unfold;
    (destruct (negb (getContext env w h q)); [eexists; reflexivity |]);
    (destruct (canvas_toBlob env w h mimeType q) as [blob |];
     [| eexists; reflexivity]);
    (destruct (blob_size blob <=? maxSize)%Z; [eexists; reflexivity |]);
    rewrite Hw, Hh; simpl orb; simpl in Hq.
  - rewrite Hq. eexists; reflexivity.
  - destruct (n_gt q n_0_3); [| eexists; reflexivity].
    destruct (IH w h _ Hw Hh Hq) as [[log out] E]. rewrite E.
    eexists; reflexivity.
Qed.

(** The shape of a run whose resize leaves no side above 800: one ladder at
    the first size, one at the resized one. *)
Lemma compress_shape (fileName : string) (maxSize : Z) (fuel : nat) :
  forall (w h q : num) (log : list (Attempt num)) (out : Settled File),
  shrink_within_800 w h ->
  compressImage env fileName maxSize fuel w h q = Some (log, out) ->
  exists n m,
    log = map (at_size w h) (lowered q n) ++
          map (at_size (fst (shrink w h)) (snd (shrink w h))) (lowered n_0_7 m) /\
    (forall k, n_gt (lower k q) n_0_3 = false -> (n <= S k)%nat) /\
    (forall k, n_gt (lower k n_0_7) n_0_3 = false -> (m <= S k)%nat).
Proof.
  induction fuel as [| f IH]; intros w h q log out [Hsw Hsh] E; [discriminate |].
  rewrite compress_unfold in E.
  assert (Hone : exists n m,
            [(w, h, q)] = map (at_size w h) (lowered q n) ++
              map (at_size (fst (shrink w h)) (snd (shrink w h))) (lowered n_0_7 m) /\
            (forall k, n_gt (lower k q) n_0_3 = false -> (n <= S k)%nat) /\
            (forall k, n_gt (lower k n_0_7) n_0_3 = false -> (m <= S k)%nat)).
  { exists 1%nat, 0%nat. repeat split; intros; lia. }
  destruct (negb (getContext env w h q)).
  { inversion E; subst. exists 0%nat, 0%nat. repeat split; intros; lia. }
  destruct (canvas_toBlob env w h mimeType q) as [blob |];
    [| inversion E; subst; exact Hone].
  destruct (blob_size blob <=? maxSize)%Z; [inversion E; subst; exact Hone |].
  destruct (n_gt q n_0_3) eqn:Hq.
  { apply logged_Some in E. destruct E as [log' [E ->]].
    destruct (IH _ _ _ _ _ (conj Hsw Hsh) E) as [n [m [-> [Hn Hm]]]].
    exists (S n), m. split; [reflexivity |]. split; [| exact Hm].
    intros [| k] Hk; simpl in Hk; [congruence |].
    specialize (Hn k Hk). lia. }
  destruct (n_gt w n_800 || n_gt h n_800)%bool; [| inversion E; subst; exact Hone].
  apply logged_Some in E. destruct E as [log' [E ->]].
  destruct (compress_same_size _ _ _ _ _ _ _ _ Hsw Hsh E) as [m [-> Hm]].
  exists 1%nat, m. split; [reflexivity |]. split; [intros; lia | exact Hm].
Qed.

Lemma compress_settles (fileName : string) (maxSize : Z) (k1 k2 : nat) :
  forall (w h q : num),
  shrink_within_800 w h ->
  n_gt (lower k1 q) n_0_3 = false ->
  n_gt (lower k2 n_0_7) n_0_3 = false ->
  exists run, compressImage env fileName maxSize (S k1 + S k2) w h q = Some run.
Proof.
  induction k1 as [| k1 IH]; intros w h q [Hsw Hsh] Hq H7;
    change (S ?a + S k2)%nat with (S (a + S k2)); rewrite compress_unfold;
    (destruct (negb (getContext env w h q)); [eexists; reflexivity |]);
    (destruct (canvas_toBlob env w h mimeType q) as [blob |];
     [| eexists; reflexivity]);
    (destruct (blob_size blob <=? maxSize)%Z; [eexists; reflexivity |]);
    simpl in Hq.
  - rewrite Hq.
    destruct (n_gt w n_800 || n_gt h n_800)%bool; [| eexists; reflexivity].
    destruct (compress_same_size_settles fileName maxSize k2 _ _ _ Hsw Hsh H7)
      as [[log out] E].
    change (0 + S k2)%nat with (S k2). rewrite E. eexists; reflexivity.
  - destruct (n_gt q n_0_3).
    + destruct (IH w h _ (conj Hsw Hsh) Hq H7) as [[log out] E].
      rewrite E. eexists; reflexivity.
    + destruct (n_gt w n_800 || n_gt h n_800)%bool; [| eexists; reflexivity].
      destruct (compress_same_size_settles fileName maxSize k2 _ _ _ Hsw Hsh H7)
        as [[log out] E].
      apply (compress_fuel_le env fileName maxSize (S k2) (S k1 + S k2)) in E;
        [| lia].
      rewrite E. eexists; reflexivity.
Qed.

End MoreSearchFacts.

(** ** Sample runs *)

Lemma sample_decodes {num : Type} (w0 h0 : num) (bytes : Z) (file : File) :
  decodes_to (noise w0 h0 bytes) file w0 h0.
Proof.
  exists (Some "data:image/jpeg;base64,"%string), "data:image/jpeg;base64,"%string.
  repeat split.
Qed.

Lemma search_stops_at_first_fit_witness :
  exists log out,
    compressImage (noise 1920%Q 1080%Q 5000000) "photo.jpg" maxSize_default 13
      1920%Q 1080%Q 0.92%Q = Some (log, out) /\
    Forall (exceeded (noise 1920%Q 1080%Q 5000000) maxSize_default) (removelast log).
Proof.
  destruct (compressImage (noise 1920%Q 1080%Q 5000000) "photo.jpg" maxSize_default
              13 1920%Q 1080%Q 0.92%Q) as [[log out] |] eqn:E.
  - exists log, out. split; [reflexivity |].
    exact (search_stops_at_first_fit (noise 1920%Q 1080%Q 5000000) "photo.jpg"
             maxSize_default 13 1920%Q 1080%Q 0.92%Q log out E).
  - vm_compute in E. discriminate E.
Defined.

Lemma larger_budget_shorter_search_witness :
  (maxSize_default <= 6000000)%Z /\
  exists log out log' out' rest,
    compressImage (noise 1920%Q 1080%Q 5000000) "photo.jpg" maxSize_default 13
      1920%Q 1080%Q 0.92%Q = Some (log, out) /\
    compressImage (noise 1920%Q 1080%Q 5000000) "photo.jpg" 6000000 13
      1920%Q 1080%Q 0.92%Q = Some (log', out') /\
    log = log' ++ rest.
Proof.
  assert (Hle : (maxSize_default <= 6000000)%Z) by discriminate.
  split; [exact Hle |].
  destruct (compressImage (noise 1920%Q 1080%Q 5000000) "photo.jpg" maxSize_default
              13 1920%Q 1080%Q 0.92%Q) as [[log out] |] eqn:E.
  - destruct (larger_budget_shorter_search (noise 1920%Q 1080%Q 5000000)
                "photo.jpg" maxSize_default 6000000 13 Hle
                1920%Q 1080%Q 0.92%Q log out E)
      as [log' [out' [rest [E' [Hlog _]]]]].
    exists log, out, log', out', rest. split; [reflexivity |].
    split; [exact E' | exact Hlog].
  - vm_compute in E. discriminate E.
Defined.


(** ** In exact arithmetic *)

Section MoreExactFacts.

Open Scope Q_scope.



(** Every attempted quality lies in (0.2, 0.92]. *)
Lemma compress_quality_range (env : Browser Q) (fileName : string) (maxSize : Z)
    (fuel : nat) :
  forall (w h q : Q) (log : list (Attempt Q)) (out : Settled File),
  0.2 < q -> q <= 0.92 ->
  compressImage env fileName maxSize fuel w h q = Some (log, out) ->
  Forall (fun a => 0.2 < attempt_quality a /\ attempt_quality a <= 0.92) log.
Proof.
  induction fuel as [| k IH]; intros w h q log out Hlo Hhi E; [discriminate |].
  assert (Hhere : 0.2 < attempt_quality (w, h, q) /\
                  attempt_quality (w, h, q) <= 0.92)
    by (split; assumption).
  rewrite compress_unfold in E.
  destruct (negb (getContext env w h q)); [inversion E; constructor |].
  destruct (canvas_toBlob env w h mimeType q) as [blob |];
    [| inversion E; subst; constructor; [exact Hhere | constructor]].
  destruct (blob_size blob <=? maxSize)%Z;
    [inversion E; subst; constructor; [exact Hhere | constructor] |].
  destruct (n_gt q n_0_3) eqn:Hq.
  { apply logged_Some in E. destruct E as [log' [E ->]].
    constructor; [exact Hhere |].
    cbn [n_gt n_sub n_0_3 n_0_1 Number_Q] in *. apply Qgtb_true in Hq.
    assert (Hlo' : 0.2 < q - 0.1) by lra.
    assert (Hhi' : q - 0.1 <= 0.92) by lra.
    exact (IH _ _ _ _ _ Hlo' Hhi' E). }
  destruct (n_gt w n_800 || n_gt h n_800)%bool;
    [| inversion E; subst; constructor; [exact Hhere | constructor]].
  apply logged_Some in E. destruct E as [log' [E ->]].
  constructor; [exact Hhere |].
  assert (Hlo' : 0.2 < 0.7) by reflexivity.
  assert (Hhi' : 0.7 <= 0.92) by (apply Qle_bool_imp_le; reflexivity).
  exact (IH _ _ 0.7 _ _ Hlo' Hhi' E).
Qed.



(** The resize and the initial bound make no side larger. *)
Lemma shrink_smaller (w h : Q) :
  0 < w -> 0 < h ->
  fst (shrink w h) <= 0.8 * w /\ snd (shrink w h) <= 0.8 * h.
Proof.
  intros Hw Hh.
  destruct (shrink_spec w h Hw Hh) as [Hnw [Hnh [Hratio [_ [_ Hlong]]]]].
  set (nw := fst (shrink w h)) in *. set (nh := snd (shrink w h)) in *.
  assert (Hmin : Qmin (0.8 * Qmax w h) 800 <= 0.8 * Qmax w h) by apply Q.le_min_l.
  assert (Hl : nw <= Qmax nw nh) by apply Q.le_max_l.
  assert (Hr : nh <= Qmax nw nh) by apply Q.le_max_r.
  destruct (Qmax_cases w h) as [[E Hle] | [E Hle]]; rewrite E in *.
  - assert (Hnw8 : nw <= 0.8 * w) by lra. split; [exact Hnw8 |].
    apply Qmult_le_l with (z := w); [exact Hw |]. nra.
  - assert (Hnh8 : nh <= 0.8 * h) by lra. split; [| exact Hnh8].
    apply Qmult_le_l with (z := h); [exact Hh |]. nra.
Qed.

Lemma initialDimensions_not_larger (w0 h0 maxDimension : Q) :
  0 < w0 -> 0 < h0 -> 0 < maxDimension ->
  fst (initialDimensions w0 h0 maxDimension) <= w0 /\
  snd (initialDimensions w0 h0 maxDimension) <= h0.
Proof.
  intros Hw Hh Hm.
  destruct (initialDimensions_spec w0 h0 maxDimension Hw Hh Hm)
    as [Hw' [Hh' [Hratio [Hlong [Hbig Hsmall]]]]].
  destruct (Qlt_le_dec maxDimension (Qmax w0 h0)) as [Hover | Hwithin].
  - specialize (Hbig Hover).
    set (w := fst (initialDimensions w0 h0 maxDimension)) in *.
    set (h := snd (initialDimensions w0 h0 maxDimension)) in *.
    assert (Hl : w <= Qmax w h) by apply Q.le_max_l.
    assert (Hr : h <= Qmax w h) by apply Q.le_max_r.
    destruct (Qmax_cases w0 h0) as [[E Hle] | [E Hle]]; rewrite E in *.
    + assert (Hlt : w <= w0) by lra. split; [exact Hlt |].
      apply Qmult_le_l with (z := w0); [exact Hw |]. nra.
    + assert (Hlt : h <= h0) by lra. split; [| exact Hlt].
      apply Qmult_le_l with (z := h0); [exact Hh |]. nra.
  - rewrite (Hsmall Hwithin). simpl. split; apply Qle_refl.
Qed.

Lemma compress_not_larger (env : Browser Q) (fileName : string) (maxSize : Z)
    (fuel : nat) :
  forall (w h q : Q) (log : list (Attempt Q)) (out : Settled File),
  0 < w -> 0 < h ->
  compressImage env fileName maxSize fuel w h q = Some (log, out) ->
  Forall (fun a => attempt_width a <= w /\ attempt_height a <= h) log.
Proof.
  induction fuel as [| k IH]; intros w h q log out Hw Hh E; [discriminate |].
  assert (Hhere : attempt_width (w, h, q) <= w /\ attempt_height (w, h, q) <= h)
    by (split; apply Qle_refl).
  rewrite compress_unfold in E.
  destruct (negb (getContext env w h q)); [inversion E; constructor |].
  destruct (canvas_toBlob env w h mimeType q) as [blob |];
    [| inversion E; subst; constructor; [exact Hhere | constructor]].
  destruct (blob_size blob <=? maxSize)%Z;
    [inversion E; subst; constructor; [exact Hhere | constructor] |].
  destruct (n_gt q n_0_3).
  { apply logged_Some in E. destruct E as [log' [E ->]].
    constructor; [exact Hhere |]. exact (IH _ _ _ _ _ Hw Hh E). }
  destruct (n_gt w n_800 || n_gt h n_800)%bool;
    [| inversion E; subst; constructor; [exact Hhere | constructor]].
  apply logged_Some in E. destruct E as [log' [E ->]].
  constructor; [exact Hhere |].
  destruct (shrink_spec w h Hw Hh) as [Hnw [Hnh _]].
  destruct (shrink_smaller w h Hw Hh) as [Hsw Hsh].
  pose proof (IH _ _ _ _ _ Hnw Hnh E) as F.
  apply Forall_impl with (2 := F). intros a [Ha1 Ha2]. split; lra.
Qed.

(** X8.  The sanitiser never enlarges an image: in exact arithmetic, for a
    positive image size and [maxDimension], every canvas of every run is at
    most as wide and at most as high as the decoded image. *)
Theorem never_upscales (env : Browser Q) (fuel : nat) (file : File)
    (maxSize : Z) (maxDimension w0 h0 : Q) (log : list (Attempt Q))
    (out : Settled File) :
  0 < w0 -> 0 < h0 -> 0 < maxDimension ->
  decodes_to env file w0 h0 ->
  removeExifData env fuel file maxSize maxDimension = Some (log, out) ->
  Forall (fun a => attempt_width a <= w0 /\ attempt_height a <= h0) log.
Proof.
  intros Hw Hh Hm Hdec E.
  rewrite (removeExifData_decoded env _ _ _ _ _ _ Hdec) in E.
  destruct (initialDimensions_spec w0 h0 maxDimension Hw Hh Hm) as [Hw' [Hh' _]].
  destruct (initialDimensions_not_larger w0 h0 maxDimension Hw Hh Hm) as [Hlw Hlh].
  pose proof (compress_not_larger env _ _ _ _ _ _ _ _ Hw' Hh' E) as F.
  apply Forall_impl with (2 := F). intros a [Ha1 Ha2]. split; lra.
Qed.

Lemma never_upscales_witness :
  exists log out,
    removeExifData (noise 6000 4000 5000000) 13 photo maxSize_default 1920 =
    Some (log, out) /\
    Forall (fun a => attempt_width a <= 6000 /\ attempt_height a <= 4000) log.
Proof.
  destruct (removeExifData (noise 6000 4000 5000000) 13 photo maxSize_default 1920)
    as [[log out] |] eqn:E.
  - exists log, out. split; [reflexivity |].
    refine (never_upscales (noise 6000 4000 5000000) 13 photo maxSize_default
              1920 6000 4000 log out _ _ _
              (sample_decodes 6000 4000 5000000 photo) E); reflexivity.
  - vm_compute in E. discriminate E.
Defined.

(** X9.  Bounding the dimensions is idempotent: in exact arithmetic the
    initial target dimensions of an image that already has the initial
    target dimensions of another are those same dimensions. *)
Theorem initialDimensions_idempotent (w0 h0 maxDimension : Q) :
  0 < w0 -> 0 < h0 -> 0 < maxDimension ->
  initialDimensions (fst (initialDimensions w0 h0 maxDimension))
                    (snd (initialDimensions w0 h0 maxDimension)) maxDimension =
  initialDimensions w0 h0 maxDimension.
Proof.
  intros Hw Hh Hm.
  destruct (initialDimensions_spec w0 h0 maxDimension Hw Hh Hm)
    as [Hw' [Hh' [_ [Hlong _]]]].
  destruct (initialDimensions_spec _ _ maxDimension Hw' Hh' Hm)
    as [_ [_ [_ [_ [_ Hsmall]]]]].
  rewrite (Hsmall Hlong). destruct (initialDimensions w0 h0 maxDimension). reflexivity.
Qed.

Lemma initialDimensions_idempotent_witness :
  initialDimensions (fst (initialDimensions 6000 4000 1920))
                    (snd (initialDimensions 6000 4000 1920)) 1920 =
  initialDimensions 6000 4000 1920.
Proof.
  apply (initialDimensions_idempotent 6000 4000 1920); reflexivity.
Defined.

End MoreExactFacts.

(** ** On the runtime's arithmetic *)

Section MoreBinary64Facts.

Open Scope float_scope.

(** X5.  In binary64, for a decoded image whose resize leaves no side
    above 800 (a condition that evaluation decides for any given size),
    [removeExifData] settles within fourteen canvases, and its log is a
    ladder of at most eight qualities from 0.92 at the initial target size
    followed by a ladder of at most six from 0.7 at the resized one. *)
Theorem search_shape_binary64 (env : Browser float) (fuel : nat) (file : File)
    (maxSize : Z) (maxDimension w0 h0 : float) :
  decodes_to env file w0 h0 ->
  let w := fst (initialDimensions w0 h0 maxDimension) in
  let h := snd (initialDimensions w0 h0 maxDimension) in
  shrink_within_800 w h ->
  (14 <= fuel)%nat ->
  exists n m out,
    (n <= 8)%nat /\ (m <= 6)%nat /\
    removeExifData env fuel file maxSize maxDimension =
    Some (map (at_size w h) (lowered 0.92 n) ++
          map (at_size (fst (shrink w h)) (snd (shrink w h))) (lowered 0.7 m),
          out).
Proof.
  intros Hdec w h Hs Hfuel.
  rewrite (removeExifData_decoded env _ _ _ _ _ _ Hdec). fold w h.
  assert (H92 : n_gt (lower 7 n_0_92) n_0_3 = false) by (vm_compute; reflexivity).
  assert (H7 : n_gt (lower 5 n_0_7) n_0_3 = false) by (vm_compute; reflexivity).
  destruct (compress_settles env (file_name file) maxSize 7 5 w h n_0_92 Hs H92 H7)
    as [[log out] E].
  apply (compress_fuel_le env (file_name file) maxSize 14 fuel) in E; [| exact Hfuel].
  destruct (compress_shape env _ _ _ _ _ _ _ _ Hs E) as [n [m [-> [Hn Hm]]]].
  exists n, m, out. split; [exact (Hn 7%nat H92) |].
  split; [exact (Hm 5%nat H7) | exact E].
Qed.

Lemma search_shape_binary64_witness :
  shrink_within_800 (fst (initialDimensions 6000 4000 1920))
                    (snd (initialDimensions 6000 4000 1920)) /\
  exists n m out,
    (n <= 8)%nat /\ (m <= 6)%nat /\
    removeExifData (noise 6000 4000 5000000%Z) 14 photo maxSize_default 1920 =
    Some (map (at_size (fst (initialDimensions 6000 4000 1920))
                       (snd (initialDimensions 6000 4000 1920))) (lowered 0.92 n) ++
          map (at_size
                 (fst (shrink (fst (initialDimensions 6000 4000 1920))
                              (snd (initialDimensions 6000 4000 1920))))
                 (snd (shrink (fst (initialDimensions 6000 4000 1920))
                              (snd (initialDimensions 6000 4000 1920)))))
              (lowered 0.7 m),
          out).
Proof.
  assert (Hs : shrink_within_800 (fst (initialDimensions 6000 4000 1920))
                                 (snd (initialDimensions 6000 4000 1920))).
  { split; vm_compute; reflexivity. }
  split; [exact Hs |].
  exact (search_shape_binary64 (noise 6000 4000 5000000%Z) 14 photo maxSize_default
           1920 6000 4000 (sample_decodes 6000 4000 5000000%Z photo) Hs (le_n 14)).
Defined.

(** X6.  In binary64, an image that is within [maxDimension] and has no
    side above 800 is never resized and is settled within eight canvases:
    the log is a ladder of at most eight qualities from 0.92 at the size of
    the image. *)
Theorem small_image_binary64 (env : Browser float) (fuel : nat) (file : File)
    (maxSize : Z) (maxDimension w0 h0 : float) :
  decodes_to env file w0 h0 ->
  n_gt w0 maxDimension = false -> n_gt h0 maxDimension = false ->
  n_gt w0 n_800 = false -> n_gt h0 n_800 = false ->
  (8 <= fuel)%nat ->
  exists n out,
    (n <= 8)%nat /\
    removeExifData env fuel file maxSize maxDimension =
    Some (map (at_size w0 h0) (lowered n_0_92 n), out).
Proof.
  intros Hdec Hw Hh Hw8 Hh8 Hfuel.
  rewrite (removeExifData_decoded env _ _ _ _ _ _ Hdec).
  unfold initialDimensions. rewrite Hw, Hh. cbn [orb fst snd].
  assert (Hfloor : n_gt (lower 7 n_0_92) n_0_3 = false) by (vm_compute; reflexivity).
  destruct (compress_same_size_settles env (file_name file) maxSize 7 w0 h0 n_0_92
              Hw8 Hh8 Hfloor) as [[log out] E].
  apply (compress_fuel_le env (file_name file) maxSize 8 fuel) in E; [| exact Hfuel].
  destruct (compress_same_size env _ _ _ _ _ _ _ _ Hw8 Hh8 E) as [n [-> Hn]].
  exists n, out. split; [exact (Hn 7%nat Hfloor) | exact E].
Qed.

Lemma small_image_binary64_witness :
  exists n out,
    (n <= 8)%nat /\
    removeExifData (noise 640 480 5000000%Z) 8 photo maxSize_default 1920 =
    Some (map (at_size 640 480) (lowered n_0_92 n), out).
Proof.
  refine (small_image_binary64 (noise 640 480 5000000%Z) 8 photo maxSize_default
            1920 640 480 (sample_decodes 640 480 5000000%Z photo) _ _ _ _ (le_n 8));
    vm_compute; reflexivity.
Defined.

End MoreBinary64Facts.

(** * Further properties of the batches and of the legacy variant *)

Section PromiseAllMore.

Context {A : Type}.
Implicit Types (promises : list (option (Settled A))) (order : list nat).

Lemma all_values_None promises :
  all_values promises = None ->
  exists i, nth_error promises i = Some None \/
            exists reason, nth_error promises i = Some (Some (Rejected reason)).
Proof.
  induction promises as [| p rest IH]; simpl; [discriminate |].
  destruct p as [[v | e] |].
  - destruct (all_values rest) eqn:E; [discriminate |].
    intros _. destruct (IH eq_refl) as [i Hi]. exists (S i). exact Hi.
  - intros _. exists 0%nat. right. exists e. reflexivity.
  - intros _. exists 0%nat. left. reflexivity.
Qed.

(** [Promise.all] settles once every promise has. *)
Lemma Promise_all_settles order promises :
  (forall i, (i < List.length promises)%nat -> In i order) ->
  (forall i, nth_error promises i <> Some None) ->
  exists outcome, Promise_all order promises = Some outcome.
Proof.
  intros Hall Hsettled. unfold Promise_all.
  destruct (first_rejection order promises) as [reason |] eqn:E;
    [eexists; reflexivity |].
  destruct (all_values promises) as [values |] eqn:V; [eexists; reflexivity |].
  exfalso. destruct (all_values_None _ V) as [i [Hn | [reason Hn]]].
  - exact (Hsettled i Hn).
  - assert (Hi : (i < List.length promises)%nat).
    { apply nth_error_Some. rewrite Hn. discriminate. }
    exact (first_rejection_None _ _ E i reason (Hall i Hi) Hn).
Qed.

Lemma Promise_all_rejected_inv order promises (reason : Error) :
  Promise_all order promises = Some (Rejected reason) ->
  exists j, In j order /\ nth_error promises j = Some (Some (Rejected reason)).
Proof.
  unfold Promise_all.
  destruct (first_rejection order promises) as [reason' |] eqn:E.
  - intros H. inversion H; subst. apply first_rejection_Some. exact E.
  - destruct (all_values promises); discriminate.
Qed.

End PromiseAllMore.

Section BatchMore.

Context {num : Type} {NUM : Number num}.

(** X10.  The batch variant on no files resolves with no results; a batch
    that resolves returns as many results as there were files, whatever the
    order in which the items settled; and the batch over two lists of files
    put end to end resolves exactly when the batches over each resolve, with
    their results put end to end. *)
Theorem batch_composes (env : Browser num) (fuel : nat) (maxSize : Z)
    (maxDimension : num) :
  (forall order,
     removeExifDataFromFiles env fuel order [] maxSize maxDimension =
     Some (Resolved [])) /\
  (forall order files results,
     removeExifDataFromFiles env fuel order files maxSize maxDimension =
     Some (Resolved results) ->
     List.length results = List.length files /\
     forall order',
       removeExifDataFromFiles env fuel order' files maxSize maxDimension =
       Some (Resolved results)) /\
  (forall order order1 order2 files1 files2 results,
     removeExifDataFromFiles env fuel order (files1 ++ files2) maxSize maxDimension =
     Some (Resolved results) <->
     exists results1 results2,
       results = results1 ++ results2 /\
       removeExifDataFromFiles env fuel order1 files1 maxSize maxDimension =
       Some (Resolved results1) /\
       removeExifDataFromFiles env fuel order2 files2 maxSize maxDimension =
       Some (Resolved results2)).
Proof.
  unfold removeExifDataFromFiles. split; [| split].
  - intros order. apply Promise_all_resolved. constructor.
  - intros order files results E. apply Promise_all_resolved in E. split.
    + apply Forall2_length in E. rewrite length_map in E. symmetry. exact E.
    + intros order'. apply Promise_all_resolved. exact E.
  - intros order order1 order2 files1 files2 results.
    rewrite Promise_all_resolved, map_app. split.
    + intros F. apply Forall2_app_inv_l in F.
      destruct F as [r1 [r2 [F1 [F2 ->]]]].
      exists r1, r2. split; [reflexivity |].
      split; apply Promise_all_resolved; assumption.
    + intros [r1 [r2 [-> [E1 E2]]]].
      apply Promise_all_resolved in E1, E2. apply Forall2_app; assumption.
Qed.

End BatchMore.

Section LegacyMore.

Context {num : Type}.
Variable env : Browser num.


(** X12.  The legacy batch resolves exactly when every item resolves, with
    the items' files in the order of the input; when it rejects, the reason
    is that of an item that rejected; and once every item has settled the
    batch has settled. *)
Theorem legacy_batch_all_or_nothing (order : list nat) (files : list File)
    (quality : num) :
  (forall results,
     ImageUtils.removeExifDataFromFiles env order files quality =
     Some (Resolved results) <->
     Forall2 (fun file result =>
                ImageUtils.removeExifData env file quality = Resolved result)
             files results) /\
  (forall reason,
     ImageUtils.removeExifDataFromFiles env order files quality =
     Some (Rejected reason) ->
     exists file, In file files /\
                  ImageUtils.removeExifData env file quality = Rejected reason) /\
  ((forall i, (i < List.length files)%nat -> In i order) ->
   exists outcome,
     ImageUtils.removeExifDataFromFiles env order files quality = Some outcome).
Proof.
  unfold ImageUtils.removeExifDataFromFiles. split; [| split].
  - intros results. rewrite Promise_all_resolved, Forall2_map_left.
    split; intros F; eapply Forall2_impl; try exact F; simpl;
      intros file result E; [inversion E; reflexivity | rewrite E; reflexivity].
  - intros reason E. apply Promise_all_rejected_inv in E.
    destruct E as [j [_ Hn]]. rewrite nth_error_map in Hn.
    destruct (nth_error files j) as [file |] eqn:Hfile; [| discriminate].
    simpl in Hn. inversion Hn as [Hitem].
    exists file. split; [apply nth_error_In with j; exact Hfile | reflexivity].
  - intros Hall. apply Promise_all_settles.
    + intros i Hi. rewrite length_map in Hi. exact (Hall i Hi).
    + intros i Hn. rewrite nth_error_map in Hn.
      destruct (nth_error files i); discriminate.
Qed.

(** X15.  The file the legacy variant resolves with is labelled with the
    type of its bytes exactly when the extension says "png" just when the
    declared type of the input starts with [image/png], and the extension is
    not "gif". *)
Theorem legacy_label_matches_bytes (file : File) (quality : num) (f : File) :
  ImageUtils.removeExifData env file quality = Resolved f ->
  (file_type f = blob_type (file_bits f) <->
   (String.eqb (ImageUtils.fileExtension (file_name file)) "png" =
    String.prefix "image/png" (file_type file)) /\
   String.eqb (ImageUtils.fileExtension (file_name file)) "gif" = false).
Proof.
  intros E. apply legacy_output in E. destruct E as [_ [-> ->]].
  unfold ImageUtils.declaredType, ImageUtils.encodingType.
  destruct (String.eqb (ImageUtils.fileExtension (file_name file)) "png") eqn:Hpng.
  - apply String.eqb_eq in Hpng. rewrite Hpng. simpl.
    destruct (String.prefix "image/png" (file_type file)); split;
      try discriminate; auto.
    intros [C _]. discriminate.
  - destruct (String.eqb (ImageUtils.fileExtension (file_name file)) "gif");
      destruct (String.prefix "image/png" (file_type file)); split;
      try discriminate; auto; intros [C1 C2]; discriminate.
Qed.

End LegacyMore.

Lemma legacy_label_matches_bytes_witness :
  ImageUtils.removeExifData (noise 640%Q 480%Q 150000) drawing 0.92%Q =
  Resolved (new_File (mkBlob 150000 "image/png") "drawing.png" "image/png") /\
  (file_type (new_File (mkBlob 150000 "image/png") "drawing.png" "image/png") =
   blob_type (file_bits
     (new_File (mkBlob 150000 "image/png") "drawing.png" "image/png")) <->
   (String.eqb (ImageUtils.fileExtension (file_name drawing)) "png" =
    String.prefix "image/png" (file_type drawing)) /\
   String.eqb (ImageUtils.fileExtension (file_name drawing)) "gif" = false).
Proof.
  split; [reflexivity |].
  apply (legacy_label_matches_bytes (noise 640%Q 480%Q 150000) drawing 0.92%Q).
  reflexivity.
Defined.

(** ** The extension of a file name *)

Lemma split_dot_nonempty (s : string) : ImageUtils.split_dot s <> [].
Proof.
  destruct s as [| c rest]; simpl; [discriminate |].
  destruct (Ascii.eqb c "."); [discriminate |].
  destruct (ImageUtils.split_dot rest); discriminate.
Qed.

Lemma pop_cons (piece : string) (pieces : list string) :
  pieces <> [] -> ImageUtils.pop (piece :: pieces) = ImageUtils.pop pieces.
Proof.
  intros Hne. unfold ImageUtils.pop. simpl.
  destruct (rev pieces) as [| last front] eqn:E; [| reflexivity].
  exfalso. apply Hne. rewrite <- (rev_involutive pieces), E. reflexivity.
Qed.

Lemma split_dot_no_dot (e : string) :
  has_dot e = false -> ImageUtils.split_dot e = [e].
Proof.
  induction e as [| c rest IH]; simpl; [reflexivity |].
  destruct (Ascii.eqb c "."); simpl; [discriminate |].
  intros H. rewrite (IH H). reflexivity.
Qed.

Lemma split_dot_has_dot (s : string) :
  has_dot s = true -> exists p q qs, ImageUtils.split_dot s = p :: q :: qs.
Proof.
  induction s as [| c rest IH]; simpl; [discriminate |].
  destruct (Ascii.eqb c "."); simpl.
  - intros _. destruct (ImageUtils.split_dot rest) as [| q qs] eqn:E.
    + exfalso. exact (split_dot_nonempty _ E).
    + exists EmptyString, q, qs. reflexivity.
  - intros H. destruct (IH H) as [p [q [qs E]]]. rewrite E.
    exists (String c p), q, qs. reflexivity.
Qed.

Lemma pop_split_dot_cons (c : ascii) (rest : string) :
  ImageUtils.pop (ImageUtils.split_dot (String c rest)) =
  if (Ascii.eqb c "."%char || has_dot rest)%bool
  then ImageUtils.pop (ImageUtils.split_dot rest)
  else Some (String c rest).
Proof.
  simpl. destruct (Ascii.eqb c "."); simpl.
  - apply pop_cons. apply split_dot_nonempty.
  - destruct (has_dot rest) eqn:H.
    + destruct (split_dot_has_dot rest H) as [p [q [qs E]]]. rewrite E.
      rewrite (pop_cons (String c p)) by discriminate.
      rewrite (pop_cons p) by discriminate. reflexivity.
    + rewrite (split_dot_no_dot rest H). reflexivity.
Qed.

Lemma has_dot_app_dot (s e : string) : has_dot (s ++ String "."%char e) = true.
Proof.
  induction s as [| c rest IH]; simpl; [reflexivity |].
  rewrite IH. apply orb_true_r.
Qed.

Lemma pop_split_dot_suffix (s e : string) :
  has_dot e = false ->
  ImageUtils.pop (ImageUtils.split_dot (s ++ String "."%char e)) = Some e.
Proof.
  intros He. induction s as [| c rest IH].
  - change (EmptyString ++ String "."%char e)%string with (String "."%char e).
    rewrite pop_split_dot_cons. simpl. rewrite (split_dot_no_dot e He). reflexivity.
  - change (String c rest ++ String "."%char e)%string
      with (String c (rest ++ String "."%char e)).
    rewrite pop_split_dot_cons, has_dot_app_dot, orb_true_r. exact IH.
Qed.

(** X13.  The extension the legacy variant reads off a name is what
    follows its last dot, lower-cased, and "jpg" when nothing follows it; a
    name without a dot is its own extension. *)
Theorem extension_is_last_segment (s e : string) :
  has_dot e = false ->
  ImageUtils.fileExtension (s ++ String "."%char e) = lowered_ext e /\
  ImageUtils.fileExtension e = lowered_ext e.
Proof.
  intros He. unfold ImageUtils.fileExtension, lowered_ext.
  rewrite (pop_split_dot_suffix s e He), (split_dot_no_dot e He). split; reflexivity.
Qed.

Lemma extension_is_last_segment_witness :
  ImageUtils.fileExtension ("holiday.2024" ++ String "."%char "JPeG") = "jpeg"%string /\
  ImageUtils.fileExtension "JPeG" = "jpeg"%string.
Proof.
  apply (extension_is_last_segment "holiday.2024" "JPeG"). reflexivity.
Defined.


(** ** The two variants on the same input *)

Section Agreement.

Context {num : Type} {NUM : Number num}.
Variable env : Browser num.

(** X16.  On an image within [maxDimension] whose JPEG encoding at the
    original size and quality 0.92 fits the budget, whose declared type is
    not PNG and whose name the legacy variant declares as JPEG, the
    compressing variant and the legacy variant at its default quality
    resolve with the same file. *)
Theorem variants_agree_on_fitting_jpeg (fuel : nat) (file : File) (maxSize : Z)
    (maxDimension w0 h0 : num) (size : Z) :
  decodes_to env file w0 h0 ->
  n_gt w0 maxDimension = false -> n_gt h0 maxDimension = false ->
  getContext env w0 h0 n_0_92 = true ->
  toBlob env w0 h0 "image/jpeg" n_0_92 = Some size ->
  (size <= maxSize)%Z ->
  String.prefix "image/png" (file_type file) = false ->
  ImageUtils.declaredType (file_name file) = "image/jpeg"%string ->
  settlement (removeExifData env (S fuel) file maxSize maxDimension) =
  Some (ImageUtils.removeExifData env file n_0_92) /\
  ImageUtils.removeExifData env file n_0_92 =
  Resolved (new_File (mkBlob size "image/jpeg") (file_name file) "image/jpeg").
Proof.
  intros Hdec Hw Hh Hctx Hblob Hfit Hpng Hdecl.
  assert (Hlegacy : ImageUtils.removeExifData env file n_0_92 =
            Resolved (new_File (mkBlob size "image/jpeg") (file_name file)
                        "image/jpeg")).
  { destruct Hdec as [result [src [Hr [Ht Hi]]]].
    unfold ImageUtils.removeExifData, canvas_toBlob, ImageUtils.encodingType.
    rewrite Hr, Ht, Hi, Hctx, Hpng, Hblob, Hdecl. reflexivity. }
  split; [| exact Hlegacy].
  rewrite Hlegacy, (removeExifData_decoded env _ _ _ _ _ _ Hdec).
  unfold initialDimensions. rewrite Hw, Hh. cbn [orb fst snd].
  rewrite (compress_fits env (file_name file) maxSize fuel w0 h0 n_0_92 size
             Hctx Hblob Hfit).
  reflexivity.
Qed.

End Agreement.

Lemma variants_agree_on_fitting_jpeg_witness :
  settlement (removeExifData (noise 500%Q 500%Q 51200) 1 photo maxSize_default
                1920%Q) =
  Some (ImageUtils.removeExifData (noise 500%Q 500%Q 51200) photo 0.92%Q) /\
  ImageUtils.removeExifData (noise 500%Q 500%Q 51200) photo 0.92%Q =
  Resolved (new_File (mkBlob 51200 "image/jpeg") "photo.jpg" "image/jpeg").
Proof.
  refine (variants_agree_on_fitting_jpeg (noise 500%Q 500%Q 51200) 0 photo
            maxSize_default 1920%Q 500%Q 500%Q 51200
            (sample_decodes 500%Q 500%Q 51200 photo) _ _ _ _ _ _ _);
    try reflexivity.
  intros C. discriminate C.
Defined.

(** * The post lists of the profile page *)

Section ProfilePageFacts.

Import ProfilePage.

Context {num Others Extra : Type}.

#[local] Abbreviation Post := (@ProfilePage.Post num Others).
#[local] Abbreviation PostsData := (@ProfilePage.PostsData num Others Extra).
#[local] Abbreviation PageState := (@ProfilePage.PageState num Others Extra).

Lemma withLike_ids postId count liked (prev : list Post) :
  map post_id (withLike postId count liked prev) = map post_id prev.
Proof.
  unfold withLike. rewrite map_map. apply map_ext. intros post.
  destruct (String.eqb (post_id post) postId); reflexivity.
Qed.

Lemma withLike_set postId (count : num) liked (prev : list Post) :
  Forall (fun post => post_id post = postId ->
                      likeCount post = count /\ isLiked post = liked)
         (withLike postId count liked prev).
Proof.
  unfold withLike. apply Forall_map. apply Forall_forall. intros post _.
  destruct (String.eqb (post_id post) postId) eqn:E; simpl.
  - auto.
  - intros C. apply String.eqb_neq in E. contradiction.
Qed.

Lemma withLike_others postId count liked (prev : list Post) :
  Forall2 (fun before after =>
             others after = others before /\
             (post_id before <> postId -> after = before))
          prev (withLike postId count liked prev).
Proof.
  induction prev as [| post rest IH]; simpl; constructor; [| exact IH].
  destruct (String.eqb (post_id post) postId) eqn:E; simpl.
  - split; [reflexivity |]. apply String.eqb_eq in E. contradiction.
  - auto.
Qed.

Lemma withLike_withLike postId c1 l1 c2 l2 (prev : list Post) :
  withLike postId c2 l2 (withLike postId c1 l1 prev) = withLike postId c2 l2 prev.
Proof.
  unfold withLike. rewrite map_map. apply map_ext. intros post.
  destruct (String.eqb (post_id post) postId) eqn:E; simpl; rewrite E; reflexivity.
Qed.

Lemma without_withLike postId postId' count liked (prev : list Post) :
  without postId (withLike postId' count liked prev) =
  withLike postId' count liked (without postId prev).
Proof.
  induction prev as [| post rest IH]; simpl; [reflexivity |].
  destruct (String.eqb (post_id post) postId') eqn:E'; simpl;
    destruct (String.eqb (post_id post) postId) eqn:E; simpl;
    rewrite ?E'; rewrite IH; reflexivity.
Qed.

Lemma without_withLike_same postId count liked (prev : list Post) :
  without postId (withLike postId count liked prev) = without postId prev.
Proof.
  rewrite without_withLike.
  induction prev as [| post rest IH]; simpl; [reflexivity |].
  destruct (String.eqb (post_id post) postId) eqn:E; simpl; [exact IH |].
  rewrite E, IH. reflexivity.
Qed.

Lemma without_ids postId (prev : list Post) :
  map post_id (without postId prev) =
  filter (fun i => negb (String.eqb i postId)) (map post_id prev).
Proof.
  induction prev as [| post rest IH]; simpl; [reflexivity |].
  destruct (String.eqb (post_id post) postId); simpl; rewrite IH; reflexivity.
Qed.

Lemma without_gone postId (prev : list Post) :
  Forall (fun post => post_id post <> postId) (without postId prev).
Proof.
  apply Forall_forall. intros post Hin. apply filter_In in Hin.
  destruct Hin as [_ H]. apply negb_true_iff in H. apply String.eqb_neq. exact H.
Qed.

Lemma mutatePosts_fuse (f g k : list Post -> list Post) (data : option PostsData) :
  (forall l, f (g l) = k l) ->
  mutatePosts f (mutatePosts g data) = mutatePosts k data.
Proof. intros H. destruct data; simpl; [rewrite H |]; reflexivity. Qed.

Lemma cached_mutatePosts (f : list Post -> list Post) (data : option PostsData) :
  f [] = [] -> cached (mutatePosts f data) = f (cached data).
Proof. intros H. destruct data; simpl; [reflexivity | symmetry; exact H]. Qed.



End ProfilePageFacts.
